(** * The Elasticsearch search adapter of CKAN, embedded and verified

    Source files embedded here (all under [ckan/lib/search/elasticsearch/]):
    - [common.py]   : settings holder, connection factory    -> [Module Common]
    - [__init__.py] : first index writer, registry, clear_all -> [Module Init]
    - [index.py]    : second index writer                     -> [Module Index]
    - [query.py]    : query runner                            -> [Module Query]

    Python values are an inductive type, Python dicts are insertion-ordered
    association lists, exceptions are values of an outcome type, and the
    statements of the source run in a state-and-exception monad.  The search
    engine itself is not part of the repository: the writers are defined over
    an interface [Engine], and [Module RefEngine] gives one instance of it, an
    in-memory document store with the semantics of the engine's REST API. *)

From stdpp Require Import gmap strings list fin_maps pretty infinite.

Set Warnings "-register-all".

Open Scope string_scope.
Open Scope list_scope.

(* ===================================================================== *)
(** ** Python values *)
(* ===================================================================== *)

Module Py.

(** The values that flow through the adapter.  [PType] stands for a class
    object, as in [index_for(type(entity))]. *)
Inductive pyval : Type :=
| PNone
| PBool (b : bool)
| PInt (z : Z)
| PStr (s : string)
| PList (l : list pyval)
| PDict (d : list (string * pyval))
| PType (qualname : string).

(** A [dict[str, Any]]: keys in insertion order. *)
Abbreviation dict := (list (string * pyval)).

(** [bool(v)]. *)
Definition truthy (v : pyval) : bool :=
  match v with
  | PNone => false
  | PBool b => b
  | PInt z => negb (z =? 0)%Z
  | PStr s => negb (String.eqb s "")
  | PList l => match l with [] => false | _ :: _ => true end
  | PDict d => match d with [] => false | _ :: _ => true end
  | PType _ => true
  end.

(** [type(v).__name__]. *)
Definition type_name (v : pyval) : string :=
  match v with
  | PNone => "NoneType"
  | PBool _ => "bool"
  | PInt _ => "int"
  | PStr _ => "str"
  | PList _ => "list"
  | PDict _ => "dict"
  | PType _ => "type"
  end.

(** Whether [hash(v)] succeeds: lists and dicts are unhashable. *)
Definition hashable (v : pyval) : bool :=
  match v with
  | PList _ | PDict _ => false
  | _ => true
  end.

(** [d.get(k)] as an option; the first binding of [k] wins. *)
Fixpoint dict_get (k : string) (d : dict) : option pyval :=
  match d with
  | [] => None
  | (k', v) :: d' => if String.eqb k k' then Some v else dict_get k d'
  end.

(** [k in d]. *)
Definition dict_has (k : string) (d : dict) : bool :=
  match dict_get k d with Some _ => true | None => false end.

(** [d.get(k)] with Python's default [None]. *)
Definition dict_get_or_none (k : string) (d : dict) : pyval :=
  match dict_get k d with Some v => v | None => PNone end.

(** [d.keys()]. *)
Definition dict_keys (d : dict) : list string := map fst d.

(** [d[k] = v]: overwrite in place, or append. *)
Fixpoint dict_set (k : string) (v : pyval) (d : dict) : dict :=
  match d with
  | [] => [(k, v)]
  | (k', v') :: d' =>
      if String.eqb k k' then (k, v) :: d' else (k', v') :: dict_set k v d'
  end.

(** [sep.join(l)]. *)
Fixpoint join (sep : string) (l : list string) : string :=
  match l with
  | [] => ""
  | [x] => x
  | x :: l' => x +:+ sep +:+ join sep l'
  end.

(** *** Exceptions *)

(** The exception classes that occur; every one derives from
    [Exception], so [except Exception] catches them all. *)
Inductive exc_class : Type :=
| NotFoundError          (* elasticsearch.exceptions, HTTP 404 *)
| RequestError           (* elasticsearch.exceptions, HTTP 400 *)
| TransportError         (* elasticsearch.exceptions, other statuses *)
| ConnectionError        (* elasticsearch.exceptions *)
| NameError
| KeyError
| TypeError
| ValueError
| NotImplementedError
| SearchIndexError       (* common.py *)
| ElasticsearchIndexError. (* __init__.py *)

(** An exception instance: its class and [str(e)]. *)
Record exc : Type := Exc { exc_cls : exc_class; exc_str : string }.

Global Instance exc_class_eq_dec : EqDecision exc_class.
Proof. solve_decision. Defined.

(** [isinstance(e, NotFoundError)], the test of [except NotFoundError]. *)
Definition is_not_found (e : exc) : bool :=
  match exc_cls e with NotFoundError => true | _ => false end.

(** *** Outcomes and the monad of statements *)

Inductive outcome (A : Type) : Type :=
| Ok (a : A)
| Raised (e : exc).
Global Arguments Ok {A} a.
Global Arguments Raised {A} e.

(** A statement over a store [S]: it returns or raises, and in both cases
    leaves a store behind (effects before a raise persist). *)
Definition M (S A : Type) : Type := S -> outcome A * S.

Definition ret {S A} (a : A) : M S A := fun s => (Ok a, s).

Definition bind {S A B} (m : M S A) (k : A -> M S B) : M S B :=
  fun s => match m s with
           | (Ok a, s') => k a s'
           | (Raised e, s') => (Raised e, s')
           end.

Definition raise {S A} (e : exc) : M S A := fun s => (Raised e, s).

(** [try: body / except Exception as e: handler e].  A handler that wants
    to let an exception class pass re-raises it. *)
Definition try_except {S A} (body : M S A) (handler : exc -> M S A) : M S A :=
  fun s => match body s with
           | (Ok a, s') => (Ok a, s')
           | (Raised e, s') => handler e s'
           end.

Definition gets {S A} (f : S -> A) : M S A := fun s => (Ok (f s), s).
Definition modify {S} (f : S -> S) : M S unit := fun s => (Ok tt, f s).

(** Lift a pure outcome (a subscript, a name lookup) into a statement. *)
Definition lift {S A} (o : outcome A) : M S A := fun s => (o, s).

(** [d[k]]: [KeyError] when absent; [str(KeyError(k))] is [repr(k)]. *)
Definition subscript (d : dict) (k : string) : outcome pyval :=
  match dict_get k d with
  | Some v => Ok v
  | None => Raised (Exc KeyError ("'" +:+ k +:+ "'"))
  end.

(** A global name looked up in a module's namespace. *)
Definition load_global (globals : dict) (name : string) : outcome pyval :=
  match dict_get name globals with
  | Some v => Ok v
  | None => Raised (Exc NameError ("name '" +:+ name +:+ "' is not defined"))
  end.

(** [iter(v)], forced into a list. *)
Definition iterate (v : pyval) : outcome (list pyval) :=
  match v with
  | PList l => Ok l
  | PDict d => Ok (map (fun kv => PStr (fst kv)) d)
  | PStr s => Ok (map (fun c => PStr (String c EmptyString)) (String.list_ascii_of_string s))
  | _ => Raised (Exc TypeError ("'" +:+ type_name v +:+ "' object is not iterable"))
  end.

(** [**v] in a call: the value has to be a mapping. *)
Definition as_kwargs (callee : string) (v : pyval) : outcome dict :=
  match v with
  | PDict d => Ok d
  | _ => Raised (Exc TypeError
           (callee +:+ " argument after ** must be a mapping, not " +:+ type_name v))
  end.

End Py.
Export Py.

(** *** More operations on values, used by the pre-processing of index.py *)

(** [d.pop(k, None)] as far as the dict goes: every binding of [k] goes. *)
Fixpoint dict_remove (k : string) (d : dict) : dict :=
  match d with
  | [] => []
  | (k', v) :: d' =>
      if String.eqb k k' then dict_remove k d' else (k', v) :: dict_remove k d'
  end.

(** [v[k]] for a string key [k]: only a mapping can answer. *)
Definition getitem (v : pyval) (k : string) : outcome pyval :=
  match v with
  | PDict d => subscript d k
  | PStr _ => Raised (Exc TypeError "string indices must be integers")
  | PList _ => Raised (Exc TypeError "list indices must be integers or slices, not str")
  | _ => Raised (Exc TypeError ("'" +:+ type_name v +:+ "' object is not subscriptable"))
  end.

(** A list comprehension [[f(x) for x in l]] whose body can raise. *)
Fixpoint comprehension {A B} (f : A -> outcome B) (l : list A) : outcome (list B) :=
  match l with
  | [] => Ok []
  | x :: l' =>
      match f x with
      | Raised e => Raised e
      | Ok y =>
          match comprehension f l' with
          | Raised e => Raised e
          | Ok ys => Ok (y :: ys)
          end
      end
  end.

(** Statements are sequenced with stdpp's monad notations:
    [x ← m; k] and [m;; k]. *)
Global Instance M_ret {S} : MRet (M S) := fun A => @ret S A.
Global Instance M_bind {S} : MBind (M S) := fun A B k m => @bind S A B m k.

(* ===================================================================== *)
(** ** The engine interface, the host configuration and the store *)
(* ===================================================================== *)

(** The requests the adapter sends through the client library, with the
    keyword arguments of the source.  In [EsIndex] the id is [None] when the
    call passes no [id=] at all. *)
Inductive call : Type :=
| EsInfo
| EsIndex (index : pyval) (id : option pyval) (document : dict)
| EsUpdate (index : pyval) (id : pyval) (doc : dict)
| EsDelete (index : pyval) (id : pyval)
| EsIndicesRefresh (index : pyval)
| EsIndicesDelete (index : pyval) (ignore : list Z)
| EsIndicesCreate (index : pyval).

(** The search engine behind the client: any state space, any answers. *)
Class Engine : Type := {
  World : Type;
  serve : call -> World -> outcome unit * World
}.

(** [ckan.common.config]: the keys the adapter reads. *)
Class Host : Type := {
  config : string -> option pyval
}.

(** [config.get(key, default)]. *)
Definition config_get `{Host} (key : string) (dflt : pyval) : pyval :=
  match config key with Some v => v | None => dflt end.

Inductive level : Type := DEBUG | INFO | WARNING | ERROR.

(** A log record: level, message template and the values formatted in. *)
Record log_entry : Type := Log {
  log_level : level;
  log_text : string;
  log_args : list pyval
}.

(** The process-wide settings of [common.SearchEngineSettings]
    (class attributes). *)
Record Settings : Type := mkSettings {
  _is_initialised : bool;
  _url : option string;
  _user : option string;
  _password : option string
}.

(** Everything a statement of the adapter can read or change. *)
Record state `{Engine} : Type := mkState {
  settings : Settings;
  world : World;
  calls : list (call * option exc);   (* requests issued, with the answer *)
  logs : list log_entry
}.
Arguments mkState {_} _ _ _ _.

Section Effects.
Context `{Engine}.

Definition answer (r : outcome unit) : option exc :=
  match r with Ok _ => None | Raised e => Some e end.

(** One request through the client: the engine answers, the request and
    its answer are recorded. *)
Definition remote (c : call) : M state unit :=
  fun s =>
    let '(r, w') := serve c (world s) in
    (r, mkState (settings s) w' (calls s ++ [(c, answer r)]) (logs s)).

Definition emit (l : level) (text : string) (args : list pyval) : M state unit :=
  modify (fun s => mkState (settings s) (world s) (calls s)
                           (logs s ++ [Log l text args])).

(** [log.exception(e)]: an ERROR record carrying [str(e)]. *)
Definition log_exception (e : exc) : M state unit :=
  emit ERROR (exc_str e) [].

(** The requests a statement issued when run from [s]. *)
Definition issued {A} (m : M state A) (s : state) : list (call * option exc) :=
  drop (length (calls s)) (calls (snd (m s))).

End Effects.

(** Document-level requests and refreshes, for counting. *)
Definition is_document_call (c : call) : bool :=
  match c with
  | EsIndex _ _ _ | EsUpdate _ _ _ | EsDelete _ _ => true
  | _ => false
  end.

Definition is_refresh_call (c : call) : bool :=
  match c with EsIndicesRefresh _ => true | _ => false end.

Definition document_calls (l : list (call * option exc)) : nat :=
  length (List.filter (fun x => is_document_call (fst x)) l).

Definition refresh_calls (l : list (call * option exc)) : nat :=
  length (List.filter (fun x => is_refresh_call (fst x)) l).

(* ===================================================================== *)
(** ** common.py *)
(* ===================================================================== *)

Module Common.

Definition DEFAULT_ELASTICSEARCH_URL : string := "http://127.0.0.1:9200".

(** The class body of [SearchEngineSettings]: the attributes before any
    call of [init]. *)
Definition class_defaults : Settings := mkSettings false None None None.

Definition set_is_initialised (b : bool) (c : Settings) : Settings :=
  mkSettings b (_url c) (_user c) (_password c).
Definition set_url (u : option string) (c : Settings) : Settings :=
  mkSettings (_is_initialised c) u (_user c) (_password c).
Definition set_user (u : option string) (c : Settings) : Settings :=
  mkSettings (_is_initialised c) (_url c) u (_password c).
Definition set_password (p : option string) (c : Settings) : Settings :=
  mkSettings (_is_initialised c) (_url c) (_user c) p.

(** A client handle as built by [Elasticsearch(hosts, http_auth=...)];
    building one sends nothing. *)
Record client : Type := mkClient {
  hosts : list pyval;
  http_auth : option (string * string);
  connection_timeout : option pyval
}.

Definition Elasticsearch (hs : list pyval) (auth : option (string * string)) : client :=
  mkClient hs auth None.

Definition set_connection_timeout (t : pyval) (es : client) : client :=
  mkClient (hosts es) (http_auth es) (Some t).

(** Truth value of a [str]. *)
Definition nonempty (s : string) : bool := negb (String.eqb s "").

Section WithEngine.
Context `{Engine} `{Host}.

(** An assignment to a class attribute. *)
Definition assign (f : Settings -> Settings) : M state unit :=
  modify (fun s => mkState (f (settings s)) (world s) (calls s) (logs s)).

(** [SearchEngineSettings.init(url=None, user=None, password=None)]. *)
Definition SearchEngineSettings_init (url user password : option string)
  : M state unit :=
  match url with
  | Some u =>
      assign (set_url (Some u));;
      assign (set_user user);;
      assign (set_password password)
  | None =>
      assign (set_url (Some DEFAULT_ELASTICSEARCH_URL))
  end;;
  assign (set_is_initialised true).

(** [SearchEngineSettings.get()]. *)
Definition SearchEngineSettings_get
  : M state (string * option string * option string) :=
  c ← gets settings;
  if negb (_is_initialised c) then
    raise (Exc SearchIndexError "Elasticsearch URL not initialised")
  else
    match _url c with
    | Some u =>
        if nonempty u then mret (u, _user c, _password c)
        else raise (Exc SearchIndexError "Elasticsearch URL is blank")
    | None => raise (Exc SearchIndexError "Elasticsearch URL is blank")
    end.

(** [make_connection()]. *)
Definition make_connection : M state client :=
  '(es_url, es_user, es_password) ← SearchEngineSettings_get;
  let es :=
    match es_user, es_password with
    | Some u, Some p =>
        if nonempty es_url && nonempty u && nonempty p
        then Elasticsearch [PStr es_url] (Some (u, p))
        else Elasticsearch [PStr es_url] None
    | _, _ => Elasticsearch [PStr es_url] None
    end in
  let timeout := config_get "elasticsearch_timeout" (PInt 10) in
  mret (set_connection_timeout timeout es).

(** [is_available()]: the [return True] after the [try] is folded into
    its body, nothing can raise between the two. *)
Definition is_available : M state bool :=
  try_except
    (conn ← make_connection;
     remote EsInfo;;
     mret true)
    (fun e => log_exception e;; mret false).

End WithEngine.

(** [elasticsearch_datetime_decoder(d)].  The datetime type and the parser
    [datetime.datetime.fromisoformat] belong to Python's library: they are
    parameters, [None] standing for the parser's [ValueError].  A decoded
    value is either left as it was or replaced by a datetime. *)
Section Decoder.
Variable datetime : Type.
Variable fromisoformat : string -> option datetime.

Inductive decoded : Type :=
| Plain (v : pyval)
| Datetime (t : datetime).

(** The body of the loop for one value. *)
Definition decode_value (v : pyval) : decoded :=
  match v with
  | PStr s =>
      match fromisoformat s with
      | Some t => Datetime t
      | None => Plain v
      end
  | _ => Plain v
  end.

(** The loop assigns to existing keys only, so the dict keeps its keys and
    their order. *)
Definition elasticsearch_datetime_decoder (d : dict) : list (string * decoded) :=
  map (fun kv => (fst kv, decode_value (snd kv))) d.

(** Lookup in a decoded dict. *)
Fixpoint decoded_get (k : string) (d : list (string * decoded)) : option decoded :=
  match d with
  | [] => None
  | (k', v) :: d' => if String.eqb k k' then Some v else decoded_get k d'
  end.

End Decoder.
End Common.

(* ===================================================================== *)
(** ** __init__.py *)
(* ===================================================================== *)

Module Init.

Definition ELASTICSEARCH_HOST : string := "localhost".
Definition ELASTICSEARCH_PORT : Z := 9200.
Definition ELASTICSEARCH_INDEX : string := "ckan".

(** The three writer classes; [PackageSearchIndex] inherits every method
    of [SearchIndex], [NoopSearchIndex] overrides the three writers. *)
Inductive class : Type := SearchIndex | PackageSearchIndex | NoopSearchIndex.

(** An instance: its class (for method dispatch) and [self.es]. *)
Record index_obj : Type := mkIndex { cls : class; es : Common.client }.

(** [_INDICES]. *)
Definition _INDICES : list (string * class) := [("package", PackageSearchIndex)].

(** The names bound at module level (imports, constants, classes,
    functions).  Bindings that are not plain values are written [PType]. *)
Definition module_globals : dict :=
  [ ("logging", PType "module"); ("sys", PType "module");
    ("warnings", PType "module"); ("traceback", PType "module");
    ("Any", PType "typing.Any"); ("Optional", PType "typing.Optional");
    ("Type", PType "typing.Type"); ("Collection", PType "typing.Collection");
    ("Elasticsearch", PType "Elasticsearch");
    ("NotFoundError", PType "NotFoundError");
    ("model", PType "module"); ("p", PType "module"); ("logic", PType "module");
    ("Context", PType "Context"); ("log", PType "Logger");
    ("ELASTICSEARCH_HOST", PStr ELASTICSEARCH_HOST);
    ("ELASTICSEARCH_PORT", PInt ELASTICSEARCH_PORT);
    ("ELASTICSEARCH_INDEX", PStr ELASTICSEARCH_INDEX);
    ("ElasticsearchIndexError", PType "ElasticsearchIndexError");
    ("ElasticsearchQueryError", PType "ElasticsearchQueryError");
    ("ElasticsearchError", PType "ElasticsearchError");
    ("SearchIndex", PType "SearchIndex");
    ("PackageSearchIndex", PType "PackageSearchIndex");
    ("NoopSearchIndex", PType "NoopSearchIndex");
    ("_INDICES", PType "dict"); ("index_for", PType "function");
    ("SynchronousSearchPlugin", PType "SynchronousSearchPlugin");
    ("rebuild", PType "function"); ("commit", PType "function");
    ("check", PType "function"); ("show", PType "function");
    ("clear", PType "function"); ("clear_all", PType "function") ].

(** [_type in _INDICES]: the key is hashed first, then compared with the
    registered strings. *)
Definition registry_contains (_type : pyval) : outcome bool :=
  if hashable _type then
    match _type with
    | PStr s => Ok (bool_decide (s ∈ map fst _INDICES))
    | _ => Ok false
    end
  else Raised (Exc TypeError ("unhashable type: '" +:+ type_name _type +:+ "'")).

(** [_INDICES[_type]] once membership is known. *)
Definition registry_get (_type : pyval) : option class :=
  match _type with
  | PStr s => snd <$> List.find (fun kc => String.eqb s (fst kc)) _INDICES
  | _ => None
  end.

(** What [notify] reads of a domain object: its class, whether it is an
    instance of [model.Package], what [as_dict()] gives (the model code is
    not part of this package, the call may raise) and its [id]. *)
Record entity : Type := mkEntity {
  entity_class : string;
  isinstance_Package : bool;
  as_dict : outcome dict;
  entity_id : pyval
}.

Section WithEngine.
Context `{Engine}.

(** [SearchIndex.__init__], inherited by the two subclasses. *)
Definition new (c : class) : M state index_obj :=
  mret (mkIndex c
          (Common.Elasticsearch
             [PDict [("host", PStr ELASTICSEARCH_HOST);
                     ("port", PInt ELASTICSEARCH_PORT)]] None)).

(** [insert_dict(self, data_dict)]. *)
Definition insert_dict (self : index_obj) (data_dict : dict) : M state unit :=
  match cls self with
  | NoopSearchIndex => mret tt
  | SearchIndex | PackageSearchIndex =>
      try_except
        (remote (EsIndex (PStr ELASTICSEARCH_INDEX) None data_dict))
        (fun e => raise (Exc ElasticsearchIndexError
                           ("Error inserting document: " +:+ exc_str e)))
  end.

(** [update_dict(self, data_dict)]: [except NotFoundError] comes before
    [except Exception]; what the fallback raises is not caught again. *)
Definition update_dict (self : index_obj) (data_dict : dict) : M state unit :=
  match cls self with
  | NoopSearchIndex => mret tt
  | SearchIndex | PackageSearchIndex =>
      try_except
        (let doc_id := dict_get_or_none "id" data_dict in
         remote (EsUpdate (PStr ELASTICSEARCH_INDEX) doc_id data_dict))
        (fun e =>
           if is_not_found e then insert_dict self data_dict
           else raise (Exc ElasticsearchIndexError
                         ("Error updating document: " +:+ exc_str e)))
  end.

(** [remove_dict(self, data_dict)]. *)
Definition remove_dict (self : index_obj) (data_dict : dict) : M state unit :=
  match cls self with
  | NoopSearchIndex => mret tt
  | SearchIndex | PackageSearchIndex =>
      try_except
        (let doc_id := dict_get_or_none "id" data_dict in
         remote (EsDelete (PStr ELASTICSEARCH_INDEX) doc_id))
        (fun e => raise (Exc ElasticsearchIndexError
                           ("Error removing document: " +:+ exc_str e)))
  end.

(** [index_for(_type)]. *)
Definition index_for (_type : pyval) : M state index_obj :=
  known ← lift (registry_contains _type);
  if (known : bool) then
    match registry_get _type with
    | Some c => new c
    | None => raise (Exc KeyError (type_name _type))   (* not after [in] *)
    end
  else
    emit WARNING "Unknown search type: {}" [_type];;
    new NoopSearchIndex.

(** [clear_all(index_name=ELASTICSEARCH_INDEX)]: first the statements under
    its [try], which read the global name [es], then the function with its
    [except Exception] handler. *)
Definition clear_all_body (index_name : string) : M state unit :=
  _ ← lift (load_global module_globals "es");
  remote (EsIndicesDelete (PStr index_name) [400; 404]%Z);;
  remote (EsIndicesCreate (PStr index_name));;
  emit INFO "All documents removed from index {}. Index recreated."
       [PStr index_name].

Definition clear_all (index_name : string) : M state unit :=
  try_except
    (clear_all_body index_name)
    (fun e => emit ERROR "Error clearing index {}: {}"
                   [PStr index_name; PStr (exc_str e)]).

(** [SynchronousSearchPlugin.notify(self, entity, operation)]:
    the index is asked for with [type(entity)], a class object. *)
Definition notify (e : entity) (operation : string) : M state unit :=
  if negb (isinstance_Package e) then mret tt
  else
    index ← index_for (PType (entity_class e));
    if String.eqb operation "new" then
      d ← lift (as_dict e); insert_dict index d
    else if String.eqb operation "changed" then
      d ← lift (as_dict e); update_dict index d
    else if String.eqb operation "deleted" then
      remove_dict index [("id", entity_id e)]
    else emit WARNING "Unknown operation: {}" [PStr operation].

(** [show(document_id, index_name=ELASTICSEARCH_INDEX)].  [get_source] stands
    for [es.get(index=index_name, id=document_id)['_source']]; only
    [NotFoundError] has a handler. *)
Definition show (get_source : string -> string -> M state dict)
    (document_id index_name : string) : M state dict :=
  try_except
    (_ ← lift (load_global module_globals "es");
     get_source index_name document_id)
    (fun e =>
       if is_not_found e then
         emit ERROR "Document ID {} not found in index {}."
              [PStr document_id; PStr index_name];;
         mret []
       else raise e).

(** [clear(document_id, index_name=ELASTICSEARCH_INDEX)]. *)
Definition clear (document_id index_name : string) : M state unit :=
  try_except
    (_ ← lift (load_global module_globals "es");
     remote (EsDelete (PStr index_name) (PStr document_id));;
     emit INFO "Document ID {} removed from index {}."
          [PStr document_id; PStr index_name])
    (fun e => emit ERROR "Error removing document ID {} from index {}: {}"
                   [PStr document_id; PStr index_name; PStr (exc_str e)]).

End WithEngine.
End Init.

(* ===================================================================== *)
(** ** index.py *)
(* ===================================================================== *)

Module Index.

Definition TYPE_FIELD : string := "entity_type".
Definition PACKAGE_TYPE : string := "package".

(** [NoopSearchIndex] inherits everything from [SearchIndex];
    [PackageSearchIndex] overrides [update_dict] and [remove_dict] and
    inherits [insert_dict] and [clear]. *)
Inductive class : Type := SearchIndex | NoopSearchIndex | PackageSearchIndex.

Record index_obj : Type := mkIndex { cls : class; es : Common.client }.

(** The names bound at module level of index.py. *)
Definition module_globals : dict :=
  [ ("logging", PType "module"); ("json", PType "module");
    ("Any", PType "typing.Any"); ("Optional", PType "typing.Optional");
    ("Elasticsearch", PType "Elasticsearch");
    ("NotFoundError", PType "NotFoundError");
    ("config", PType "CKANConfig");
    ("SearchIndexError", PType "SearchIndexError");
    ("make_connection", PType "function");
    ("model", PType "module");
    ("PluginImplementations", PType "PluginImplementations");
    ("IPackageController", PType "IPackageController");
    ("logic", PType "module"); ("lib_plugins", PType "module");
    ("log", PType "Logger");
    ("TYPE_FIELD", PStr TYPE_FIELD); ("PACKAGE_TYPE", PStr PACKAGE_TYPE);
    ("SearchIndex", PType "SearchIndex");
    ("NoopSearchIndex", PType "NoopSearchIndex");
    ("PackageSearchIndex", PType "PackageSearchIndex") ].

Section WithEngine.
Context `{Engine} `{Host}.

(** [config.get('ckan.elasticsearch.index', 'ckan')]. *)
Definition index_name : pyval := config_get "ckan.elasticsearch.index" (PStr "ckan").

(** [SearchIndex.__init__]: [self.es = make_connection()].  index.py takes
    [make_connection] (and the name [SearchIndexError]) from
    [ckan.lib.search.common], a module that is not among the sources, not
    from the common.py of this package: the function is a parameter of the
    constructor, and the methods below take [self.es] as given. *)
Definition new (make_connection : M state Common.client) (c : class)
  : M state index_obj :=
  es ← make_connection;
  mret (mkIndex c es).

(** [PackageSearchIndex.index_package(self, pkg_dict, defer_commit=False)].
    Keyword arguments are evaluated left to right before the call. *)
Definition index_package (self : index_obj) (pkg_dict : option dict)
    (defer_commit : bool) : M state unit :=
  match pkg_dict with
  | None => mret tt
  | Some d =>
      try_except
        (id ← lift (subscript d "id");
         remote (EsIndex index_name (Some id) d);;
         if negb defer_commit then remote (EsIndicesRefresh index_name)
         else mret tt)
        (fun e =>
           log_exception e;;
           raise (Exc SearchIndexError ("Error indexing package: " +:+ exc_str e)))
  end.

(** [update_dict(self, data, defer_commit=False)], by class. *)
Definition update_dict (self : index_obj) (data : dict) (defer_commit : bool)
  : M state unit :=
  match cls self with
  | PackageSearchIndex => index_package self (Some data) defer_commit
  | SearchIndex | NoopSearchIndex =>
      emit DEBUG ("NOOP Index: " +:+ join "," (dict_keys data)) []
  end.

(** [SearchIndex.insert_dict(self, data)]: [self.update_dict(data)],
    dispatched on the class of [self]. *)
Definition insert_dict (self : index_obj) (data : dict) : M state unit :=
  update_dict self data false.

(** [remove_dict(self, pkg_dict)], by class.  In the override the name
    [defer_commit] is neither a parameter nor a local: it is looked up
    among the globals. *)
Definition remove_dict (self : index_obj) (pkg_dict : dict) : M state unit :=
  match cls self with
  | PackageSearchIndex =>
      try_except
        (id ← lift (subscript pkg_dict "id");
         remote (EsDelete index_name id);;
         defer_commit ← lift (load_global module_globals "defer_commit");
         if negb (truthy defer_commit) then remote (EsIndicesRefresh index_name)
         else mret tt)
        (fun e =>
           if is_not_found e then
             id ← lift (subscript pkg_dict "id");
             emit INFO "Package {} not found in Elasticsearch index." [id]
           else
             log_exception e;;
             raise (Exc SearchIndexError ("Error removing package: " +:+ exc_str e)))
  | SearchIndex | NoopSearchIndex =>
      emit DEBUG ("NOOP Delete: " +:+ join "," (dict_keys pkg_dict)) []
  end.

(** [SearchIndex.clear(self)]: no handler around the two requests. *)
Definition clear (self : index_obj) : M state unit :=
  remote (EsIndicesDelete index_name [400; 404]%Z);;
  remote (EsIndicesCreate index_name).

(** [PackageSearchIndex.commit(self)]. *)
Definition commit (self : index_obj) : M state unit := mret tt.

End WithEngine.

(** [PackageSearchIndex.preprocess_package_dict_for_elasticsearch(pkg_dict)].
    [str_of] is the builtin [str] on values that are not strings. *)
Section Preprocess.
Variable str_of : pyval -> string.

(** [f"{v}"]. *)
Definition format_value (v : pyval) : string :=
  match v with PStr s => s | _ => str_of v end.

(** One round of the loop over the two date fields.  The test mentions
    [datetime.datetime], a name the module never imports; were it bound, no
    value of this model would be an instance of it. *)
Definition convert_date (date_field : string) (es_pkg_dict : dict) : outcome dict :=
  if dict_has date_field es_pkg_dict then
    match load_global module_globals "datetime" with
    | Raised e => Raised e
    | Ok _ => Ok es_pkg_dict
    end
  else Ok es_pkg_dict.

(** [[tag['name'] for tag in es_pkg_dict['tags']]]. *)
Definition tag_names (tags : pyval) : outcome (list pyval) :=
  match iterate tags with
  | Raised e => Raised e
  | Ok l => comprehension (fun tag => getitem tag "name") l
  end.

(** [f"{extra['key']}: {extra['value']}"]. *)
Definition extra_text (extra : pyval) : outcome string :=
  match getitem extra "key" with
  | Raised e => Raised e
  | Ok k =>
      match getitem extra "value" with
      | Raised e => Raised e
      | Ok v => Ok (format_value k +:+ ": " +:+ format_value v)
      end
  end.

Definition preprocess_package_dict_for_elasticsearch (pkg_dict : dict)
  : outcome dict :=
  let es_pkg_dict := pkg_dict in                       (* pkg_dict.copy() *)
  match convert_date "metadata_created" es_pkg_dict with
  | Raised e => Raised e
  | Ok es_pkg_dict =>
  match convert_date "metadata_modified" es_pkg_dict with
  | Raised e => Raised e
  | Ok es_pkg_dict =>
  let es_pkg_dict := dict_remove "state" es_pkg_dict in
  let es_pkg_dict := dict_remove "revision_id" es_pkg_dict in
  match (if dict_has "tags" es_pkg_dict then
           match tag_names (dict_get_or_none "tags" es_pkg_dict) with
           | Raised e => Raised e
           | Ok names => Ok (dict_set "tags" (PList names) es_pkg_dict)
           end
         else Ok es_pkg_dict) with
  | Raised e => Raised e
  | Ok es_pkg_dict =>
  match (if dict_has "organization" es_pkg_dict then
           match getitem (dict_get_or_none "organization" es_pkg_dict) "name" with
           | Raised e => Raised e
           | Ok name => Ok (dict_set "organization" name es_pkg_dict)
           end
         else Ok es_pkg_dict) with
  | Raised e => Raised e
  | Ok es_pkg_dict =>
  if dict_has "extras" es_pkg_dict then
    match iterate (dict_get_or_none "extras" es_pkg_dict) with
    | Raised e => Raised e
    | Ok extras =>
        match comprehension extra_text extras with
        | Raised e => Raised e
        | Ok texts =>
            Ok (dict_set "extras_search_text" (PStr (join " " texts)) es_pkg_dict)
        end
    end
  else Ok es_pkg_dict
  end end end end.

End Preprocess.
End Index.

(* ===================================================================== *)
(** ** query.py *)
(* ===================================================================== *)

(** A query clause built with [Q(...)]. *)
Inductive clause : Type :=
| MatchAll                                            (* Q("match_all") *)
| MultiMatch (query : pyval) (fields : list string).  (* Q("multi_match", ...) *)

(** One hit of a response and what [hit.to_dict()] gives. *)
Record hit : Type := mkHit { hit_source : dict }.
Definition to_dict (h : hit) : pyval := PDict (hit_source h).

(** The part of a response the runner reads: [response.hits] and
    [response.hits.total.value]. *)
Record response : Type := mkResponse { hits : list hit; total_value : Z }.

(** The query-building library and the engine behind it.  [Search] is the
    library's immutable request builder; each builder method may refuse its
    arguments, and [execute s q] stands for [s.query(q).execute()]. *)
Class SearchDSL : Type := {
  Search : Type;
  Backend : Type;
  Search_new : Common.client -> pyval -> Search;
  Search_filter : Search -> string -> dict -> outcome Search;
  Search_sort : Search -> pyval -> outcome Search;
  Search_extra : Search -> dict -> outcome Search;
  execute : Search -> clause -> Backend -> outcome response * Backend
}.

Module Query.

Inductive class : Type := SearchQuery | PackageSearchQuery.

(** An instance of [SearchQuery] or of its subclass. *)
Record query_obj : Type := mkQuery {
  cls : class;
  results : list pyval;
  count : Z;
  facets : dict
}.

(** [SearchQuery.__init__]. *)
Definition new (c : class) : query_obj := mkQuery c [] 0 [].

(** The fields of the free-text clause, with their static weights. *)
Definition FIELDS : list string := ["name^4"; "title^4"; "tags^2"; "groups^2"; "text"].

Section WithDSL.
Context `{SearchDSL} `{Host}.

(** What a statement of the runner can change: the engine behind the
    library, and the record of the searches executed. *)
Record qstate : Type := mkQState {
  backend : Backend;
  executed : list (Search * clause)
}.

(** The module's own [make_connection], which shadows the imported one:
    it reads the URL from the configuration, not from the settings. *)
Definition make_connection : Common.client :=
  let es_url := config_get "ckan.elasticsearch.url" (PStr "http://localhost:9200") in
  Common.Elasticsearch [es_url] None.

(** [s.query(q).execute()], recorded. *)
Definition run_search (s : Search) (q : clause) : M qstate response :=
  fun st =>
    let '(r, b') := execute s q (backend st) in
    (r, mkQState b' (executed st ++ [(s, q)])).

(** Lines 36-39 of [run]: the clause chosen for a request. *)
Definition query_clause (query : dict) : clause :=
  if dict_has "q" query && truthy (dict_get_or_none "q" query)
  then MultiMatch (dict_get_or_none "q" query) FIELDS
  else MatchAll.

(** [for fq in fqs: s = s.filter('term', **fq)]. *)
Fixpoint apply_filters (s : Search) (fqs : list pyval) : outcome Search :=
  match fqs with
  | [] => Ok s
  | fq :: rest =>
      match as_kwargs "filter()" fq with
      | Raised e => Raised e
      | Ok kw =>
          match Search_filter s "term" kw with
          | Raised e => Raised e
          | Ok s' => apply_filters s' rest
          end
      end
  end.

(** [PackageSearchQuery._process_facets(self, search, response)]. *)
Definition _process_facets (self : query_obj) (search : Search) (r : response) : dict := [].

(** [run(self, query, **kwargs)].  The object is threaded explicitly: the
    result is the mapping returned together with [self] as the call leaves
    it; no attribute is assigned before the last statement that can raise,
    so a raising call leaves [self] as it was. *)
Definition run (self : query_obj) (query : dict) : M qstate (query_obj * pyval) :=
  match cls self with
  | SearchQuery =>
      raise (Exc NotImplementedError
               "SearchQuery.run() must be implemented by subclasses.")
  | PackageSearchQuery =>
      let es := make_connection in
      let index_name := config_get "ckan.elasticsearch.index" (PStr "ckan") in
      let s := Search_new es index_name in
      let q := query_clause query in
      s ← (if dict_has "fq" query then
              fqs ← lift (iterate (dict_get_or_none "fq" query));
              lift (apply_filters s fqs)
            else mret s);
      s ← (if dict_has "sort" query
            then lift (Search_sort s (dict_get_or_none "sort" query))
            else mret s);
      s ← (if dict_has "start" query
            then lift (Search_extra s [("from_", dict_get_or_none "start" query)])
            else mret s);
      s ← (if dict_has "rows" query
            then lift (Search_extra s [("size", dict_get_or_none "rows" query)])
            else mret s);
      r ← run_search s q;
      let self := mkQuery (cls self) (map to_dict (hits r)) (count self) (facets self) in
      let self := mkQuery (cls self) (results self) (total_value r) (facets self) in
      let self :=
        if dict_has "facet" query && truthy (dict_get_or_none "facet" query)
        then mkQuery (cls self) (results self) (count self) (_process_facets self s r)
        else self in
      mret (self, PDict [("results", PList (results self));
                         ("count", PInt (count self));
                         ("facets", PDict (facets self))])
  end.

End WithDSL.
End Query.

(* ===================================================================== *)
(** ** A reference engine: an in-memory document store *)
(* ===================================================================== *)

(** The engine is not part of the repository.  This instance follows its
    REST API as the client library exposes it: an index is a map from
    document id to source; indexing with an id is an upsert under that id;
    indexing without an id stores the document under an id the engine
    picks, different from every id in use; update and delete of an id that
    is not there answer 404, which the client raises as [NotFoundError]. *)
Module RefEngine.

(** How the client places a value in a request path.  Its "empty" values
    ([None], the empty string, the empty list) count as a missing argument.
    Strings stand for themselves, integers and booleans are printed; other
    composite values are outside this model and are refused. *)
Inductive path_part : Type := Skip | Part (s : string) | Unmodelled.

Definition path_of (v : pyval) : path_part :=
  match v with
  | PNone => Skip
  | PStr s => if String.eqb s "" then Skip else Part s
  | PList [] => Skip
  | PInt z => Part (pretty z)
  | PBool b => Part (if b then "true" else "false")
  | _ => Unmodelled
  end.

(** The partial-document merge of the update API: objects are merged key
    by key, everything else is replaced. *)
Fixpoint merge_val (new old : pyval) : pyval :=
  match new, old with
  | PDict dn, PDict dold =>
      PDict ((fix go (l : list (string * pyval)) (acc : dict) : dict :=
                match l with
                | [] => acc
                | (k, v) :: l' =>
                    go l' (dict_set k
                             (match dict_get k acc with
                              | Some ov => merge_val v ov
                              | None => v
                              end) acc)
                end) dn dold)
  | _, _ => new
  end.

Definition merge_doc (partial old : dict) : dict :=
  match merge_val (PDict partial) (PDict old) with
  | PDict d => d
  | _ => partial
  end.

(** Index name -> document id -> source. *)
Abbreviation indices := (gmap string (gmap string dict)).

Definition missing_argument : exc :=
  Exc ValueError "Empty value passed for a required argument.".
Definition unmodelled_argument : exc :=
  Exc TypeError "path argument outside the model".
Definition index_not_found (idx : string) : exc :=
  Exc NotFoundError ("NotFoundError(404, 'index_not_found_exception', 'no such index [" +:+ idx +:+ "]')").
Definition document_missing (k : string) : exc :=
  Exc NotFoundError ("NotFoundError(404, 'document_missing_exception', '[" +:+ k +:+ "]: document missing')").
Definition not_found_result (k : string) : exc :=
  Exc NotFoundError ("NotFoundError(404, 'not_found', '" +:+ k +:+ "')").
Definition already_exists (idx : string) : exc :=
  Exc RequestError ("RequestError(400, 'resource_already_exists_exception', 'index [" +:+ idx +:+ "] already exists')").

(** All documents of an index; a missing index has none. *)
Definition docs_of (idx : string) (w : indices) : gmap string dict :=
  default ∅ (w !! idx).

Definition ref_serve (c : call) (w : indices) : outcome unit * indices :=
  match c with
  | EsInfo => (Ok tt, w)
  | EsIndex index id document =>
      match path_of index with
      | Skip => (Raised missing_argument, w)
      | Unmodelled => (Raised unmodelled_argument, w)
      | Part idx =>
          let docs := docs_of idx w in
          match path_of (default PNone id) with
          | Unmodelled => (Raised unmodelled_argument, w)
          | Part k => (Ok tt, <[idx := <[k := document]> docs]> w)
          | Skip => (Ok tt, <[idx := <[fresh (dom docs) := document]> docs]> w)
          end
      end
  | EsUpdate index id doc =>
      match path_of index, path_of id with
      | Skip, _ | _, Skip => (Raised missing_argument, w)
      | Unmodelled, _ | _, Unmodelled => (Raised unmodelled_argument, w)
      | Part idx, Part k =>
          match w !! idx with
          | None => (Raised (index_not_found idx), w)
          | Some docs =>
              match docs !! k with
              | None => (Raised (document_missing k), w)
              | Some old => (Ok tt, <[idx := <[k := merge_doc doc old]> docs]> w)
              end
          end
      end
  | EsDelete index id =>
      match path_of index, path_of id with
      | Skip, _ | _, Skip => (Raised missing_argument, w)
      | Unmodelled, _ | _, Unmodelled => (Raised unmodelled_argument, w)
      | Part idx, Part k =>
          match w !! idx with
          | None => (Raised (index_not_found idx), w)
          | Some docs =>
              match docs !! k with
              | None => (Raised (not_found_result k), w)
              | Some _ => (Ok tt, <[idx := delete k docs]> w)
              end
          end
      end
  | EsIndicesRefresh index =>
      match path_of index with
      | Skip => (Ok tt, w)
      | Unmodelled => (Raised unmodelled_argument, w)
      | Part idx =>
          match w !! idx with
          | None => (Raised (index_not_found idx), w)
          | Some _ => (Ok tt, w)
          end
      end
  | EsIndicesDelete index ignore =>
      match path_of index with
      | Skip => (Raised missing_argument, w)
      | Unmodelled => (Raised unmodelled_argument, w)
      | Part idx =>
          match w !! idx with
          | None =>
              if bool_decide (404%Z ∈ ignore) then (Ok tt, w)
              else (Raised (index_not_found idx), w)
          | Some _ => (Ok tt, delete idx w)
          end
      end
  | EsIndicesCreate index =>
      match path_of index with
      | Skip => (Raised missing_argument, w)
      | Unmodelled => (Raised unmodelled_argument, w)
      | Part idx =>
          match w !! idx with
          | Some _ => (Raised (already_exists idx), w)
          | None => (Ok tt, <[idx := ∅]> w)
          end
      end
  end.

Definition engine : Engine := {| World := indices; serve := ref_serve |}.

(** A host configuration with no key set: every [config.get] gives its
    default. *)
Definition no_config : Host := {| config := fun _ => None |}.

(** The store at start-up over a given engine state. *)
Definition boot (w : indices) : @state engine :=
  @mkState engine Common.class_defaults w [] [].

(** Whether a source carries the string [k] under ["id"]. *)
Definition has_id (k : string) (d : dict) : bool :=
  match dict_get "id" d with
  | Some (PStr s) => String.eqb s k
  | _ => false
  end.

(** The number of stored documents of an index whose source carries the
    id [k], under whatever key they are stored. *)
Definition copies (idx k : string) (w : indices) : nat :=
  size (filter (fun kd => has_id k (snd kd) = true) (docs_of idx w)).

End RefEngine.

(** A query library that only records what it is given, over an engine
    that answers every search with one fixed response. *)
Module RecordingDSL.

Record search : Type := mkSearch {
  s_using : Common.client;
  s_index : pyval;
  s_filters : list (string * dict);
  s_sort : list pyval;
  s_extra : dict
}.

Definition dsl (canned : outcome response) : SearchDSL := {|
  Search := search;
  Backend := unit;
  Search_new := fun es idx => mkSearch es idx [] [] [];
  Search_filter := fun s name kw =>
    Ok (mkSearch (s_using s) (s_index s) (s_filters s ++ [(name, kw)]) (s_sort s) (s_extra s));
  Search_sort := fun s key =>
    Ok (mkSearch (s_using s) (s_index s) (s_filters s) [key] (s_extra s));
  Search_extra := fun s kw =>
    Ok (mkSearch (s_using s) (s_index s) (s_filters s) (s_sort s) (s_extra s ++ kw));
  execute := fun _ _ b => (canned, b)
|}.

End RecordingDSL.

(* ===================================================================== *)
(** ** Vocabulary of the statements *)
(* ===================================================================== *)

(** The writer operations of both modules, as one family. *)
Inductive writer_op : Type :=
| InitInsert (self : Init.index_obj)
| InitUpdate (self : Init.index_obj)
| InitRemove (self : Init.index_obj)
| IndexInsert (self : Index.index_obj)
| IndexUpdate (self : Index.index_obj) (defer_commit : bool)
| IndexRemove (self : Index.index_obj).

Definition run_op `{Engine} `{Host} (op : writer_op) (d : dict) : M state unit :=
  match op with
  | InitInsert self => Init.insert_dict self d
  | InitUpdate self => Init.update_dict self d
  | InitRemove self => Init.remove_dict self d
  | IndexInsert self => Index.insert_dict self d
  | IndexUpdate self defer_commit => Index.update_dict self d defer_commit
  | IndexRemove self => Index.remove_dict self d
  end.




(** Writers that send requests: every class of [__init__.py] but the no-op
    one, and [PackageSearchIndex] of [index.py]. *)
Definition sends_requests (op : writer_op) : bool :=
  match op with
  | InitInsert self | InitUpdate self | InitRemove self =>
      match Init.cls self with Init.NoopSearchIndex => false | _ => true end
  | IndexInsert self | IndexUpdate self _ | IndexRemove self =>
      match Index.cls self with Index.PackageSearchIndex => true | _ => false end
  end.

Definition is_init_update (op : writer_op) : bool :=
  match op with InitUpdate _ => true | _ => false end.

(** Whether the first request of a trace was answered with
    [NotFoundError]. *)
Definition not_found_first (l : list (call * option exc)) : bool :=
  match l with
  | (_, Some e) :: _ => is_not_found e
  | _ => false
  end.

(** The query objects a program can hold: made by the constructor, then
    used through [run] only. *)
Inductive reachable `{SearchDSL} `{Host} : Query.query_obj -> Prop :=
| reach_new (c : Query.class) : reachable (Query.new c)
| reach_run (o o' : Query.query_obj) (query : dict) (st st' : Query.qstate)
    (r : pyval) :
    reachable o ->
    Query.run o query st = (Ok (o', r), st') ->
    reachable o'.

(** The searches a call of [run] executed. *)
Definition newly_executed `{SearchDSL} `{Host} {A} (m : M Query.qstate A)
    (st : Query.qstate) : list (Search * clause) :=
  drop (length (Query.executed st)) (Query.executed (snd (m st))).

(** The two configuration errors of [SearchEngineSettings.get]. *)
Definition not_initialised : exc :=
  Exc SearchIndexError "Elasticsearch URL not initialised".
Definition blank_url : exc :=
  Exc SearchIndexError "Elasticsearch URL is blank".

(** Sample data for the closed statements. *)
Definition rivers : dict := [("id", PStr "pkg-1"); ("title", PStr "Rivers")].
Definition lakes : dict := [("id", PStr "pkg-0"); ("title", PStr "Lakes")].

(** An engine state: index [ckan] holding [lakes] under its id. *)
Definition one_lake : RefEngine.indices := {[ "ckan" := {[ "pkg-0" := lakes ]} ]}.

Definition init_writer : Init.index_obj :=
  Init.mkIndex Init.SearchIndex
    (Common.Elasticsearch
       [PDict [("host", PStr "localhost"); ("port", PInt 9200)]] None).

(** A response with two hits, and the recording library over an engine
    that answers every search with it. *)
Definition two_hits : response := mkResponse [mkHit rivers; mkHit lakes] 2.
Definition canned_dsl : SearchDSL := RecordingDSL.dsl (Ok two_hits).

(** A request with a free-text term and the facet flag. *)
Definition open_data : dict := [("q", PStr "open data"); ("facet", PBool true)].

Definition index_writer : Index.index_obj :=
  Index.mkIndex Index.PackageSearchIndex
    (Common.set_connection_timeout (PInt 10)
       (Common.Elasticsearch [PStr "http://127.0.0.1:9200"] None)).

(** *** Vocabulary of the further properties *)

(** The errors an unbound global name ends in. *)
Definition es_unbound : exc := Exc NameError "name 'es' is not defined".
Definition datetime_unbound : exc := Exc NameError "name 'datetime' is not defined".
Definition defer_commit_unbound : exc :=
  Exc SearchIndexError "Error removing package: name 'defer_commit' is not defined".

(** An optional argument as the list of what was passed. *)
Definition option_list {A} (o : option A) : list A :=
  match o with Some a => [a] | None => [] end.

(** Sample data: a package as in the usage note of index.py (without its
    two dates), the same with a creation date, a domain object, a stand-in
    for [str] and a stand-in for the ISO parser. *)
Definition sample_package : dict :=
  [ ("id", PStr "example-dataset-1");
    ("name", PStr "Example Dataset");
    ("tags", PList [PDict [("name", PStr "Open Data")]; PDict [("name", PStr "Public")]]);
    ("state", PStr "active");
    ("revision_id", PStr "rev-1234");
    ("organization", PDict [("name", PStr "city"); ("title", PStr "City")]);
    ("extras", PList [PDict [("key", PStr "source"); ("value", PStr "Survey")]]) ].

Definition preprocessed_sample : dict :=
  [ ("id", PStr "example-dataset-1");
    ("name", PStr "Example Dataset");
    ("tags", PList [PStr "Open Data"; PStr "Public"]);
    ("organization", PStr "city");
    ("extras", PList [PDict [("key", PStr "source"); ("value", PStr "Survey")]]);
    ("extras_search_text", PStr "source: Survey") ].

Definition dated_package : dict :=
  ("metadata_created", PStr "2024-05-01T10:00:00") :: sample_package.

Definition package_entity : Init.entity :=
  Init.mkEntity "Package" true (Ok rivers) (PStr "pkg-1").

Definition no_str : pyval -> string := fun _ => "".

Definition sample_parser : string -> option nat :=
  fun s => if String.eqb s "2024-05-01T10:00:00" then Some 0 else None.

(** A request with two term filters, a sort key and pagination. *)
Definition filtered_request : dict :=
  [ ("q", PStr "open data");
    ("fq", PList [PDict [("state", PStr "active")]; PDict [("type", PStr "dataset")]]);
    ("sort", PStr "name asc");
    ("start", PInt 0);
    ("rows", PInt 10) ].

(** Settings after [init('http://es:9200', 'ckan', 'secret')]. *)
Definition configured : Settings :=
  mkSettings true (Some "http://es:9200") (Some "ckan") (Some "secret").

(* ===================================================================== *)
(** ** Proof tools *)
(* ===================================================================== *)

(** Unfold the monad down to matches on engine answers. *)
Ltac unfold_monad :=
  unfold mbind, mret, M_bind, M_ret, bind, ret, raise, try_except, lift,
         gets, modify in *.

Ltac unfold_effects :=
  unfold Common.assign, log_exception, emit, remote in *; unfold_monad.

(* ===================================================================== *)
(** ** Settings and the connection factory (common.py) *)
(* ===================================================================== *)

Section CommonFacts.
Context `{Engine} `{Host}.

Lemma get_leaves_state (s : state) :
  snd (Common.SearchEngineSettings_get s) = s.
Proof.
  unfold Common.SearchEngineSettings_get; unfold_monad; simpl.
  destruct (_is_initialised (settings s)); simpl; [|reflexivity].
  destruct (_url (settings s)) as [u|]; [|reflexivity].
  destruct (Common.nonempty u); reflexivity.
Qed.

Lemma get_uninitialised (s : state) :
  _is_initialised (settings s) = false ->
  Common.SearchEngineSettings_get s = (Raised not_initialised, s).
Proof.
  intros Hi. unfold Common.SearchEngineSettings_get; unfold_monad; simpl.
  rewrite Hi. reflexivity.
Qed.

Lemma make_connection_uninitialised (s : state) :
  _is_initialised (settings s) = false ->
  Common.make_connection s = (Raised not_initialised, s).
Proof.
  intros Hi. unfold Common.make_connection; unfold_monad.
  rewrite (get_uninitialised s Hi). reflexivity.
Qed.

(** C3. While [SearchEngineSettings.init] has not run ([_is_initialised] is
    still [False]), [get] raises the configuration error
    'Elasticsearch URL not initialised'; so does [make_connection] of
    common.py, so nothing that starts by opening a connection with it gets
    further (no continuation runs, whatever it is), and [is_available]
    answers [False]: in every case no request is sent and the engine is left
    untouched. *)
Theorem C3_no_connection_before_init (s : state) :
  _is_initialised (settings s) = false ->
  Common.SearchEngineSettings_get s = (Raised not_initialised, s)
  /\ Common.make_connection s = (Raised not_initialised, s)
  /\ (forall (A : Type) (k : Common.client -> M state A),
        (Common.make_connection ≫= k) s = (Raised not_initialised, s))
  /\ fst (Common.is_available s) = Ok false
  /\ calls (snd (Common.is_available s)) = calls s
  /\ world (snd (Common.is_available s)) = world s.
Proof.
  intros Hi.
  pose proof (make_connection_uninitialised s Hi) as Hm.
  split; [exact (get_uninitialised s Hi)|].
  split; [exact Hm|].
  split; [intros A k; unfold mbind, M_bind, bind; rewrite Hm; reflexivity|].
  unfold Common.is_available, try_except, mbind, M_bind, bind.
  rewrite Hm. repeat split.
Qed.

(** C4. After [init] with the empty string as URL (whatever the user and
    password), [get] raises the configuration error
    'Elasticsearch URL is blank' and leaves the settings as they are, so
    the second, third, ... call of [get] raises it as well. *)
Theorem C4_blank_url_override (s : state) (user password : option string)
    (n : nat) :
  let s1 := snd (Common.SearchEngineSettings_init (Some "") user password s) in
  let after_n_calls := Nat.iter n (fun st => snd (Common.SearchEngineSettings_get st)) s1 in
  fst (Common.SearchEngineSettings_init (Some "") user password s) = Ok tt
  /\ after_n_calls = s1
  /\ Common.SearchEngineSettings_get after_n_calls = (Raised blank_url, s1).
Proof.
  intros s1 after_n_calls.
  assert (Hn : after_n_calls = s1).
  { subst after_n_calls. induction n as [|n IH]; simpl; [reflexivity|].
    rewrite IH. apply get_leaves_state. }
  split; [reflexivity|]. split; [exact Hn|].
  rewrite Hn. reflexivity.
Qed.

(** C10. [init(None, user, password)] stores the built-in default URL, marks
    the settings initialised and leaves the stored user and password as they
    were, whatever [user] and [password] are; [get] then returns the default
    URL with the credentials stored before.  On the settings of a fresh
    process that is [(default URL, None, None)]. *)
Theorem C10_init_without_url (s : state) (user password : option string) :
  let s1 := snd (Common.SearchEngineSettings_init None user password s) in
  fst (Common.SearchEngineSettings_init None user password s) = Ok tt
  /\ _url (settings s1) = Some Common.DEFAULT_ELASTICSEARCH_URL
  /\ _user (settings s1) = _user (settings s)
  /\ _password (settings s1) = _password (settings s)
  /\ _is_initialised (settings s1) = true
  /\ world s1 = world s /\ calls s1 = calls s /\ logs s1 = logs s
  /\ Common.SearchEngineSettings_get s1 =
       (Ok (Common.DEFAULT_ELASTICSEARCH_URL, _user (settings s), _password (settings s)), s1)
  /\ (forall (w : World) (cs : list (call * option exc)) (ls : list log_entry),
        let fresh_state := mkState Common.class_defaults w cs ls in
        let s2 := snd (Common.SearchEngineSettings_init None user password fresh_state) in
        Common.SearchEngineSettings_get s2 =
          (Ok (Common.DEFAULT_ELASTICSEARCH_URL, None, None), s2)).
Proof.
  repeat split.
Qed.

End CommonFacts.

(** C3 at start-up: the class attributes as the class body leaves them. *)
Lemma C3_witness :
  @Common.SearchEngineSettings_get RefEngine.engine (RefEngine.boot ∅)
    = (Raised not_initialised, RefEngine.boot ∅)
  /\ @Common.make_connection RefEngine.engine RefEngine.no_config (RefEngine.boot ∅)
    = (Raised not_initialised, RefEngine.boot ∅)
  /\ fst (@Common.is_available RefEngine.engine RefEngine.no_config (RefEngine.boot ∅))
    = Ok false.
Proof.
  pose proof (@C3_no_connection_before_init RefEngine.engine RefEngine.no_config
                (RefEngine.boot ∅) eq_refl) as (Hg & Hm & _ & Ha & _).
  split; [exact Hg|]. split; [exact Hm|exact Ha].
Defined.

(* ===================================================================== *)
(** ** The index writers (__init__.py and index.py), over any engine *)
(* ===================================================================== *)

Section WriterFacts.
Context `{Engine} `{Host}.

Ltac unfold_writers :=
  unfold run_op, Init.insert_dict, Init.update_dict, Init.remove_dict,
         Index.insert_dict, Index.update_dict, Index.remove_dict,
         Index.index_package, subscript, load_global, issued in *;
  cbn; unfold_effects; cbn.

(** One case split on whatever the code branches on next. *)
Ltac step :=
  match goal with
  | |- context [match dict_get ?k ?d with _ => _ end] => destruct (dict_get k d) eqn:?
  | |- context [serve ?c ?w] => destruct (serve c w) as [[[]|?] ?] eqn:?
  | |- context [is_not_found ?e] => destruct (is_not_found e) eqn:?
  | |- context [negb ?b] => is_var b; destruct b
  end; cbn.

(** Every path of every writer, with the requests it issued spelled out. *)
Ltac by_cases op :=
  destruct op as [[[] ?]|[[] ?]|[[] ?]|[[] ?]|[[] ?] ?|[[] ?]];
  unfold_writers; repeat step;
  rewrite <- ?app_assoc, ?drop_app_length, ?app_nil_r, ?drop_all; cbn.




(** index.py, delete: a not-found answer is logged, the call returns. *)
Lemma index_remove_not_found (self : Index.index_obj) (d : dict) (s : state)
    (id : pyval) (e : exc) (w' : World) :
  Index.cls self = Index.PackageSearchIndex ->
  dict_get "id" d = Some id ->
  serve (EsDelete Index.index_name id) (world s) = (Raised e, w') ->
  is_not_found e = true ->
  Index.remove_dict self d s =
    (Ok tt,
     mkState (settings s) w'
       (calls s ++ [(EsDelete Index.index_name id, Some e)])
       (logs s ++ [Log INFO "Package {} not found in Elasticsearch index." [id]])).
Proof.
  intros Hc Hid He Hnf. destruct self as [c es]; cbn in Hc; subst c.
  unfold_writers. rewrite Hid; cbn. rewrite He; cbn. rewrite Hnf. reflexivity.
Qed.

(** __init__.py, update: a not-found answer hands over to [insert_dict]. *)
Lemma init_update_not_found (self : Init.index_obj) (d : dict) (s : state)
    (e : exc) (w' : World) :
  Init.cls self <> Init.NoopSearchIndex ->
  serve (EsUpdate (PStr Init.ELASTICSEARCH_INDEX) (dict_get_or_none "id" d) d) (world s)
    = (Raised e, w') ->
  is_not_found e = true ->
  Init.update_dict self d s =
    Init.insert_dict self d
      (mkState (settings s) w'
         (calls s ++ [(EsUpdate (PStr Init.ELASTICSEARCH_INDEX)
                         (dict_get_or_none "id" d) d, Some e)])
         (logs s)).
Proof.
  intros Hc He Hnf. destruct self as [[] es]; cbn in Hc; try congruence;
    unfold Init.update_dict; cbn; unfold try_except at 1; unfold remote at 1;
    rewrite He; cbn; rewrite Hnf; reflexivity.
Qed.





(** C7, as amended.  A writer that sends requests (any class of __init__.py
    but the no-op one, [PackageSearchIndex] of index.py), given a mapping
    with an ["id"] key, issues at most one refresh and exactly one
    document-level request; the one exception is [update_dict] of
    __init__.py when the engine answers its update with not-found: the
    fallback insert is a second document-level request. *)
Theorem C7_one_document_request_unless_fallback (op : writer_op) (d : dict)
    (s : state) :
  sends_requests op = true ->
  dict_has "id" d = true ->
  let sent := issued (run_op op d) s in
  refresh_calls sent <= 1
  /\ document_calls sent =
       if is_init_update op && not_found_first sent then 2 else 1.
Proof.
  unfold dict_has.
  by_cases op; intros Hs Hd; try discriminate; cbn;
    try (split; [lia|reflexivity]).
  all: match goal with Hnf : is_not_found _ = _ |- _ => rewrite Hnf end;
    cbn; split; [lia|reflexivity].
Qed.

(** C9, as amended.  For every hashable value other than the string
    'package', [index_for] logs a warning and returns a [NoopSearchIndex],
    without sending a request; on that object [insert_dict], [update_dict]
    and [remove_dict] return without raising and leave the whole state (the
    engine, the record of requests, the log) as it is, for every mapping. *)
Theorem C9_unregistered_type_gets_noop (_type : pyval) (s : state) :
  hashable _type = true ->
  _type <> PStr "package" ->
  exists o : Init.index_obj,
    Init.index_for _type s =
      (Ok o, mkState (settings s) (world s) (calls s)
               (logs s ++ [Log WARNING "Unknown search type: {}" [_type]]))
    /\ Init.cls o = Init.NoopSearchIndex
    /\ forall (d : dict) (s' : state),
         Init.insert_dict o d s' = (Ok tt, s')
         /\ Init.update_dict o d s' = (Ok tt, s')
         /\ Init.remove_dict o d s' = (Ok tt, s').
Proof.
  intros Hh Hne.
  assert (Hk : Init.registry_contains _type = Ok false).
  { unfold Init.registry_contains. rewrite Hh.
    destruct _type as [| | |t| | |]; try reflexivity.
    f_equal. apply bool_decide_eq_false. cbn. intros Hin.
    apply list_elem_of_singleton in Hin. congruence. }
  eexists. split.
  - unfold Init.index_for, Init.new; unfold_effects. rewrite Hk. reflexivity.
  - split; [reflexivity|]. intros d s'. repeat split.
Qed.

End WriterFacts.

(* ===================================================================== *)
(** ** The writers over the reference engine *)
(* ===================================================================== *)

Section RefEngineFacts.
Import RefEngine.
#[local] Existing Instance engine.
Context `{Host}.

Lemma path_of_nonempty (k : string) : k <> "" -> path_of (PStr k) = Part k.
Proof.
  intros Hk. cbn. destruct (String.eqb k "") eqn:E; [|reflexivity].
  apply String.eqb_eq in E. contradiction.
Qed.

(** Deleting an id that is not stored: 404, nothing changes. *)
Lemma ref_delete_absent (index : pyval) (idx k : string) (w : indices) :
  path_of index = Part idx -> k <> "" -> docs_of idx w !! k = None ->
  exists e, ref_serve (EsDelete index (PStr k)) w = (Raised e, w)
            /\ is_not_found e = true.
Proof.
  intros Hi Hk Habs. unfold ref_serve. rewrite Hi, (path_of_nonempty k Hk).
  unfold docs_of in Habs. destruct (w !! idx) as [docs|]; cbn in Habs.
  - rewrite Habs. eexists; split; reflexivity.
  - eexists; split; reflexivity.
Qed.

(** Updating an id that is not stored: 404, nothing changes. *)
Lemma ref_update_absent (index : pyval) (idx k : string) (d : dict) (w : indices) :
  path_of index = Part idx -> k <> "" -> docs_of idx w !! k = None ->
  exists e, ref_serve (EsUpdate index (PStr k) d) w = (Raised e, w)
            /\ is_not_found e = true.
Proof.
  intros Hi Hk Habs. unfold ref_serve. rewrite Hi, (path_of_nonempty k Hk).
  unfold docs_of in Habs. destruct (w !! idx) as [docs|]; cbn in Habs.
  - rewrite Habs. eexists; split; reflexivity.
  - eexists; split; reflexivity.
Qed.

(** index.py: removing an absent id returns, the engine state is kept. *)
Lemma ref_index_remove_absent (self : Index.index_obj) (d : dict)
    (s : state) (idx k : string) :
  Index.cls self = Index.PackageSearchIndex ->
  path_of Index.index_name = Part idx ->
  dict_get "id" d = Some (PStr k) -> k <> "" ->
  docs_of idx (world s) !! k = None ->
  fst (Index.remove_dict self d s) = Ok tt
  /\ world (snd (Index.remove_dict self d s)) = world s
  /\ logs (snd (Index.remove_dict self d s)) =
       logs s ++ [Log INFO "Package {} not found in Elasticsearch index." [PStr k]].
Proof.
  intros Hc Hi Hid Hk Habs.
  destruct (ref_delete_absent _ idx k (world s) Hi Hk Habs) as (e & He & Hnf).
  rewrite (index_remove_not_found self d s (PStr k) e (world s) Hc Hid He Hnf).
  repeat split.
Qed.

(** __init__.py: removing an absent id raises the module's error. *)
Lemma ref_init_remove_absent (self : Init.index_obj) (d : dict)
    (s : state) (k : string) :
  Init.cls self <> Init.NoopSearchIndex ->
  dict_get "id" d = Some (PStr k) -> k <> "" ->
  docs_of Init.ELASTICSEARCH_INDEX (world s) !! k = None ->
  exists e, is_not_found e = true
    /\ fst (Init.remove_dict self d s) =
         Raised (Exc ElasticsearchIndexError
                   ("Error removing document: " +:+ exc_str e))
    /\ world (snd (Init.remove_dict self d s)) = world s.
Proof.
  intros Hc Hid Hk Habs.
  destruct (ref_delete_absent (PStr Init.ELASTICSEARCH_INDEX)
              Init.ELASTICSEARCH_INDEX k (world s) eq_refl Hk Habs) as (e & He & Hnf).
  exists e. split; [exact Hnf|].
  destruct self as [[] es]; cbn in Hc; try congruence;
    unfold Init.remove_dict, dict_get_or_none; cbn; rewrite Hid;
    unfold try_except, remote; cbn in He |- *; rewrite He; split; reflexivity.
Qed.

Lemma docs_of_insert (idx : string) (docs : gmap string dict) (w : indices) :
  docs_of idx (<[idx := docs]> w) = docs.
Proof. unfold docs_of. rewrite lookup_insert_eq. reflexivity. Qed.

(** Indexing under a given id: an upsert at that id. *)
Lemma ref_index_with_id (index : pyval) (idx k : string) (d : dict) (w : indices) :
  path_of index = Part idx -> k <> "" ->
  @serve engine (EsIndex index (Some (PStr k)) d) w =
    (Ok tt, <[idx := <[k := d]> (docs_of idx w)]> w).
Proof.
  intros Hi Hk. unfold serve, engine, ref_serve. rewrite Hi.
  change (default PNone (Some (PStr k))) with (PStr k).
  rewrite (path_of_nonempty k Hk). reflexivity.
Qed.

(** Refreshing an index that exists. *)
Lemma ref_refresh_present (index : pyval) (idx : string) (w : indices)
    (docs : gmap string dict) :
  path_of index = Part idx -> w !! idx = Some docs ->
  @serve engine (EsIndicesRefresh index) w = (Ok tt, w).
Proof.
  intros Hi Hw. unfold serve, engine, ref_serve. rewrite Hi, Hw. reflexivity.
Qed.

(** index.py: [update_dict] is an upsert under the document's id. *)
Lemma ref_index_update_upserts (self : Index.index_obj) (d : dict)
    (defer_commit : bool) (s : state) (idx k : string) :
  Index.cls self = Index.PackageSearchIndex ->
  path_of Index.index_name = Part idx ->
  dict_get "id" d = Some (PStr k) -> k <> "" ->
  fst (Index.update_dict self d defer_commit s) = Ok tt
  /\ world (snd (Index.update_dict self d defer_commit s)) =
       <[idx := <[k := d]> (docs_of idx (world s))]> (world s)
  /\ docs_of idx (world (snd (Index.update_dict self d defer_commit s))) !! k = Some d.
Proof.
  intros Hc Hi Hid Hk. destruct self as [c es]; cbn in Hc; subst c.
  assert (Hlook : docs_of idx (<[idx := <[k := d]> (docs_of idx (world s))]> (world s)) !! k
                  = Some d).
  { rewrite docs_of_insert. apply lookup_insert_eq. }
  unfold Index.update_dict, Index.index_package, subscript; cbn [Index.cls].
  rewrite Hid.
  unfold try_except, mbind, M_bind, bind, lift, remote, mret, M_ret, ret.
  rewrite (ref_index_with_id _ idx k d (world s) Hi Hk).
  destruct defer_commit; cbn [negb world fst snd].
  - repeat split. exact Hlook.
  - erewrite (ref_refresh_present _ idx) by (try exact Hi; apply lookup_insert_eq).
    cbn [fst snd world]. repeat split. exact Hlook.
Qed.

(** __init__.py: [update_dict] of an absent id stores the document under
    an id the engine picks. *)
Lemma ref_init_update_absent (self : Init.index_obj) (d : dict)
    (s : state) (k : string) :
  Init.cls self <> Init.NoopSearchIndex ->
  dict_get "id" d = Some (PStr k) -> k <> "" ->
  docs_of Init.ELASTICSEARCH_INDEX (world s) !! k = None ->
  let docs := docs_of Init.ELASTICSEARCH_INDEX (world s) in
  let auto := fresh (dom docs) in
  fst (Init.update_dict self d s) = Ok tt
  /\ world (snd (Init.update_dict self d s)) =
       <[Init.ELASTICSEARCH_INDEX := <[auto := d]> docs]> (world s)
  /\ (auto <> k ->
      docs_of Init.ELASTICSEARCH_INDEX (world (snd (Init.update_dict self d s))) !! k
        = None).
Proof.
  intros Hc Hid Hk Habs docs auto.
  destruct (ref_update_absent (PStr Init.ELASTICSEARCH_INDEX)
              Init.ELASTICSEARCH_INDEX k d (world s) eq_refl Hk Habs) as (e & He & Hnf).
  assert (Hrun : Init.update_dict self d s =
                 (Ok tt, mkState (settings s)
                           (<[Init.ELASTICSEARCH_INDEX := <[auto := d]> docs]> (world s))
                           ((calls s ++ [(EsUpdate (PStr Init.ELASTICSEARCH_INDEX) (PStr k) d, Some e)])
                              ++ [(EsIndex (PStr Init.ELASTICSEARCH_INDEX) None d, None)])
                           (logs s))).
  { assert (Hg : dict_get_or_none "id" d = PStr k)
      by (unfold dict_get_or_none; rewrite Hid; reflexivity).
    rewrite (init_update_not_found self d s e (world s) Hc); rewrite ?Hg; auto.
    destruct self as [[] es]; cbn in Hc; try congruence; reflexivity. }
  rewrite Hrun; cbn. split; [reflexivity|]. split; [reflexivity|].
  intros Hne. rewrite docs_of_insert.
  rewrite lookup_insert_ne by exact Hne. exact Habs.
Qed.

End RefEngineFacts.

(* ===================================================================== *)
(** ** The query runner (query.py), over any query library and engine *)
(* ===================================================================== *)

Section QueryFacts.
Context `{SearchDSL} `{Host}.
Import Query.

Ltac qstep :=
  match goal with
  | |- context [if dict_has ?k ?d then _ else _] => destruct (dict_has k d) eqn:?
  | |- context [iterate ?v] => destruct (iterate v) eqn:?
  | |- context [apply_filters ?s ?l] => destruct (apply_filters s l) eqn:?
  | |- context [Search_sort ?s ?v] => destruct (Search_sort s v) eqn:?
  | |- context [Search_extra ?s ?v] => destruct (Search_extra s v) eqn:?
  | |- context [execute ?s ?q ?b] => destruct (execute s q b) as [[?|?] ?] eqn:?
  end; cbn.

Ltac unfold_run :=
  unfold run, run_search, newly_executed; cbn; unfold_monad; cbn.

(** What a returning call of [run] did. *)
Lemma run_success (self o' : query_obj) (query : dict) (st st' : qstate)
    (r : pyval) :
  run self query st = (Ok (o', r), st') ->
  exists s resp,
    execute s (query_clause query) (backend st) = (Ok resp, backend st')
    /\ executed st' = executed st ++ [(s, query_clause query)]
    /\ o' = mkQuery (cls self) (map to_dict (hits resp)) (total_value resp)
              (if dict_has "facet" query && truthy (dict_get_or_none "facet" query)
               then [] else facets self)
    /\ r = PDict [("results", PList (results o')); ("count", PInt (count o'));
                  ("facets", PDict (facets o'))].
Proof.
  destruct self as [[] rs n fs]; unfold_run; [discriminate|].
  repeat qstep; intros Hr; simplify_eq.
  all: eexists _, _; split; [eassumption|]; split; [reflexivity|];
       destruct (dict_has "facet" query && truthy (dict_get_or_none "facet" query));
       split; reflexivity.
Qed.

(** The clause of every search [run] executes. *)
Lemma run_clause (self : query_obj) (query : dict) (st : qstate)
    (sent : Search * clause) :
  sent ∈ newly_executed (run self query) st -> snd sent = query_clause query.
Proof.
  destruct self as [[] rs n fs]; unfold_run.
  - rewrite drop_all. intros Hin. apply elem_of_nil in Hin. contradiction.
  - repeat qstep; rewrite ?drop_all, ?drop_app_length; intros Hin;
      repeat (apply elem_of_cons in Hin as [Hin|Hin]);
      try (apply elem_of_nil in Hin; contradiction); subst; reflexivity.
Qed.

(** A request with none of the builder keys always reaches the engine. *)
Lemma run_plain_request (self : query_obj) (query : dict) (st : qstate) :
  cls self = PackageSearchQuery ->
  dict_has "fq" query = false -> dict_has "sort" query = false ->
  dict_has "start" query = false -> dict_has "rows" query = false ->
  newly_executed (run self query) st =
    [(Search_new make_connection
        (config_get "ckan.elasticsearch.index" (PStr "ckan")),
      query_clause query)].
Proof.
  intros Hc Hfq Hsort Hstart Hrows. destruct self as [c rs n fs]; cbn in Hc; subst c.
  unfold_run. rewrite Hfq, Hsort, Hstart, Hrows. cbn.
  repeat qstep; rewrite ?drop_app_length; reflexivity.
Qed.

(** The facets attribute is empty on every object a program can hold. *)
Lemma reachable_facets (o : query_obj) : reachable o -> facets o = [].
Proof.
  induction 1 as [c|o o' query st st' r Ho IH Hrun]; [reflexivity|].
  apply run_success in Hrun as (s & resp & _ & _ & -> & _). cbn.
  destruct (dict_has "facet" query && truthy (dict_get_or_none "facet" query)); auto.
Qed.

(** C5.  When the request has no key 'q', or has a falsy value under it
    (the empty values [None], '', [[]], [{}] are falsy), the clause of the
    query is match-all; when 'q' holds a truthy value (every non-empty
    string is), the clause is the multi-field match of that value over the
    five weighted fields.  That clause is the one in every search [run]
    executes, and a request with none of the keys fq, sort, start, rows does
    reach the engine, with exactly one search. *)
Theorem C5_match_all_unless_free_text (query : dict) :
  (dict_get "q" query = None -> query_clause query = MatchAll)
  /\ (forall v, dict_get "q" query = Some v -> truthy v = false ->
        query_clause query = MatchAll)
  /\ (forall v, dict_get "q" query = Some v -> truthy v = true ->
        query_clause query = MultiMatch v FIELDS)
  /\ Forall (fun v => truthy v = false) [PNone; PStr ""; PList []; PDict []]
  /\ (forall term : string, term <> "" -> truthy (PStr term) = true)
  /\ (forall (self : query_obj) (st : qstate) (sent : Search * clause),
        sent ∈ newly_executed (run self query) st ->
        snd sent = query_clause query)
  /\ (forall (self : query_obj) (st : qstate),
        cls self = PackageSearchQuery ->
        dict_has "fq" query = false -> dict_has "sort" query = false ->
        dict_has "start" query = false -> dict_has "rows" query = false ->
        newly_executed (run self query) st =
          [(Search_new make_connection
              (config_get "ckan.elasticsearch.index" (PStr "ckan")),
            query_clause query)]).
Proof.
  unfold query_clause, dict_has, dict_get_or_none.
  split; [intros ->; reflexivity|].
  split; [intros v -> ->; reflexivity|].
  split; [intros v -> ->; reflexivity|].
  split; [repeat constructor|].
  split.
  { intros term Hne. cbn. destruct (String.eqb term "") eqn:E; [|reflexivity].
    apply String.eqb_eq in E. contradiction. }
  split; [exact (fun self st sent => run_clause self query st sent)|].
  exact (fun self st => run_plain_request self query st).
Qed.

(** C8.  On a query object made by the constructor and used through [run]
    only, a call of [run] that returns has executed exactly one search, and
    the mapping it returns has exactly the three keys 'results' (the hits of
    the response, each through [to_dict]), 'count' (the total of the
    response) and 'facets', which is the empty mapping whether or not the
    request sets the facet flag; the object's own facets stay empty. *)
Theorem C8_run_returns_results_count_and_empty_facets
    (self self' : query_obj) (query : dict) (st st' : qstate) (r : pyval) :
  reachable self ->
  run self query st = (Ok (self', r), st') ->
  exists (s : Search) (resp : response),
    execute s (query_clause query) (backend st) = (Ok resp, backend st')
    /\ executed st' = executed st ++ [(s, query_clause query)]
    /\ r = PDict [("results", PList (map to_dict (hits resp)));
                  ("count", PInt (total_value resp));
                  ("facets", PDict [])]
    /\ results self' = map to_dict (hits resp)
    /\ count self' = total_value resp
    /\ facets self' = [].
Proof.
  intros Hreach Hrun.
  pose proof (reachable_facets self Hreach) as Hf.
  pose proof (reachable_facets self' (reach_run self self' query st st' r Hreach Hrun)) as Hf'.
  apply run_success in Hrun as (s & resp & Hex & Hlog & Ho & Hr).
  exists s, resp. rewrite Hr, Hf'. subst self'. cbn. repeat split; assumption.
Qed.

End QueryFacts.

(* ===================================================================== *)
(** ** Closed instances on the reference engine *)
(* ===================================================================== *)

Section ClosedInstances.
Import RefEngine.
#[local] Existing Instance engine.
#[local] Existing Instance no_config.

(** C1.  [remove_dict] of __init__.py on an id that is not in the index:
    the engine's not-found falls into [except Exception] and comes out as
    [ElasticsearchIndexError]; the same call on the writer of index.py
    returns. *)
Theorem C1_init_remove_dict_raises_on_absent_id :
  docs_of "ckan" one_lake !! "pkg-1" = None
  /\ Init.remove_dict init_writer rivers (boot one_lake) =
       (Raised (Exc ElasticsearchIndexError
                  "Error removing document: NotFoundError(404, 'not_found', 'pkg-1')"),
        mkState Common.class_defaults one_lake
          [(EsDelete (PStr "ckan") (PStr "pkg-1"), Some (not_found_result "pkg-1"))]
          [])
  /\ fst (Index.remove_dict index_writer rivers (boot one_lake)) = Ok tt.
Proof. split; [reflexivity|]. split; reflexivity. Qed.

(** C2.  [update_dict] of __init__.py on an id that is not in the index:
    the fallback [insert_dict] passes no id, so the document is stored under
    an id of the engine's choosing ("0" here) and not under its own; a
    second [update_dict] of the same document misses it again and stores a
    second copy.  The writer of index.py stores it under its id. *)
Theorem C2_init_update_dict_stores_under_engine_id :
  let s1 := snd (Init.update_dict init_writer rivers (boot one_lake)) in
  let s2 := snd (Init.update_dict init_writer rivers s1) in
  docs_of "ckan" one_lake !! "pkg-1" = None
  /\ fst (Init.update_dict init_writer rivers (boot one_lake)) = Ok tt
  /\ docs_of "ckan" (world s1) !! "pkg-1" = None
  /\ docs_of "ckan" (world s1) !! "0" = Some rivers
  /\ fst (Init.update_dict init_writer rivers s1) = Ok tt
  /\ docs_of "ckan" (world s2) !! "pkg-1" = None
  /\ copies "ckan" "pkg-1" (world s2) = 2
  /\ docs_of "ckan"
       (world (snd (Index.update_dict index_writer rivers false (boot one_lake))))
       !! "pkg-1" = Some rivers.
Proof. cbv zeta. repeat split; vm_compute; reflexivity. Qed.


(** The claim C7 fails for [update_dict] of __init__.py on an absent id:
    two document-level requests, the update and then the index. *)
Lemma C7_counterexample :
  map fst (issued (Init.update_dict init_writer rivers) (boot one_lake)) =
    [EsUpdate (PStr "ckan") (PStr "pkg-1") rivers; EsIndex (PStr "ckan") None rivers]
  /\ document_calls (issued (Init.update_dict init_writer rivers) (boot one_lake)) = 2.
Proof. split; vm_compute; reflexivity. Qed.

(** The claim C9 fails for an unhashable value: the empty list is not
    'package', and [index_for] raises [TypeError] on it instead of
    returning an index. *)
Lemma C9_counterexample :
  PList [] <> PStr "package"
  /\ Init.index_for (PList []) (boot ∅) =
       (Raised (Exc TypeError "unhashable type: 'list'"), boot ∅).
Proof. split; [discriminate|reflexivity]. Qed.


(** C7 at work: an update through index.py, one index request and one
    refresh. *)
Lemma C7_witness :
  let sent := issued (run_op (IndexUpdate index_writer false) rivers) (boot one_lake) in
  refresh_calls sent <= 1
  /\ document_calls sent =
       if is_init_update (IndexUpdate index_writer false) && not_found_first sent
       then 2 else 1.
Proof.
  apply (@C7_one_document_request_unless_fallback engine no_config
           (IndexUpdate index_writer false) rivers (boot one_lake));
    reflexivity.
Defined.

(** C9 at work: the class object that [notify] passes. *)
Lemma C9_witness :
  exists o : Init.index_obj,
    Init.index_for (PType "Package") (boot ∅) =
      (Ok o, mkState Common.class_defaults ∅ []
               [Log WARNING "Unknown search type: {}" [PType "Package"]])
    /\ Init.cls o = Init.NoopSearchIndex
    /\ forall (d : dict) (s' : state),
         Init.insert_dict o d s' = (Ok tt, s')
         /\ Init.update_dict o d s' = (Ok tt, s')
         /\ Init.remove_dict o d s' = (Ok tt, s').
Proof.
  apply (@C9_unregistered_type_gets_noop engine (PType "Package") (boot ∅));
    [reflexivity|discriminate].
Defined.

End ClosedInstances.


(* ===================================================================== *)
(** ** Closed instances of the query runner *)
(* ===================================================================== *)

(** C5 at work: no 'q', an empty 'q', a free-text term, and the search a
    request with a term sends. *)
Lemma C5_witness :
  Query.query_clause [] = MatchAll
  /\ Query.query_clause [("q", PStr "")] = MatchAll
  /\ Query.query_clause [("q", PStr "open data")]
       = MultiMatch (PStr "open data") Query.FIELDS
  /\ map snd (@newly_executed canned_dsl RefEngine.no_config _
                (@Query.run canned_dsl RefEngine.no_config
                   (Query.new Query.PackageSearchQuery) [("q", PStr "open data")])
                (@Query.mkQState canned_dsl tt []))
       = [MultiMatch (PStr "open data") Query.FIELDS].
Proof.
  split; [apply (@C5_match_all_unless_free_text canned_dsl RefEngine.no_config []);
          reflexivity|].
  split; [apply (@C5_match_all_unless_free_text canned_dsl RefEngine.no_config
                   [("q", PStr "")]) with (v := PStr ""); reflexivity|].
  split; [apply (@C5_match_all_unless_free_text canned_dsl RefEngine.no_config
                   [("q", PStr "open data")]) with (v := PStr "open data"); reflexivity|].
  destruct (@C5_match_all_unless_free_text canned_dsl RefEngine.no_config
              [("q", PStr "open data")]) as (_ & _ & _ & _ & _ & _ & Hplain).
  rewrite (Hplain (Query.new Query.PackageSearchQuery)
             (@Query.mkQState canned_dsl tt [])); reflexivity.
Defined.

(** C8 at work: a fresh runner, a request with the facet flag set, an
    engine answering with two hits. *)
Lemma C8_witness :
  exists (s : @Search canned_dsl) (resp : response),
    @execute canned_dsl s (Query.query_clause open_data) tt = (Ok resp, tt)
    /\ @Query.executed canned_dsl
         (snd (@Query.run canned_dsl RefEngine.no_config
                 (Query.new Query.PackageSearchQuery) open_data
                 (@Query.mkQState canned_dsl tt [])))
       = [] ++ [(s, Query.query_clause open_data)]
    /\ PDict [("results", PList [PDict rivers; PDict lakes]);
              ("count", PInt 2); ("facets", PDict [])]
       = PDict [("results", PList (map to_dict (hits resp)));
                ("count", PInt (total_value resp));
                ("facets", PDict [])]
    /\ [PDict rivers; PDict lakes] = map to_dict (hits resp)
    /\ 2%Z = total_value resp
    /\ @nil (string * pyval) = [].
Proof.
  exact (@C8_run_returns_results_count_and_empty_facets canned_dsl RefEngine.no_config
           (Query.new Query.PackageSearchQuery)
           (Query.mkQuery Query.PackageSearchQuery [PDict rivers; PDict lakes] 2 [])
           open_data
           (@Query.mkQState canned_dsl tt [])
           (snd (@Query.run canned_dsl RefEngine.no_config
                   (Query.new Query.PackageSearchQuery) open_data
                   (@Query.mkQState canned_dsl tt [])))
           (PDict [("results", PList [PDict rivers; PDict lakes]);
                   ("count", PInt 2); ("facets", PDict [])])
           (@reach_new canned_dsl RefEngine.no_config Query.PackageSearchQuery)
           eq_refl).
Defined.

(* ===================================================================== *)
(** ** Further properties: settings and connections (common.py) *)
(* ===================================================================== *)

Section MoreCommonFacts.
Context `{Engine} `{Host}.

Lemma nonempty_true (u : string) : u <> "" -> Common.nonempty u = true.
Proof.
  intros Hu. unfold Common.nonempty. destruct (String.eqb u "") eqn:E; [|reflexivity].
  apply String.eqb_eq in E. contradiction.
Qed.

(** X1.  [init] with a non-empty URL followed by [get] gives back exactly
    the three arguments of [init], whatever was stored before; neither call
    touches the engine, the request record or the log. *)
Theorem settings_round_trip (s : state) (u : string)
    (user password : option string) :
  u <> "" ->
  let s1 := snd (Common.SearchEngineSettings_init (Some u) user password s) in
  Common.SearchEngineSettings_get s1 = (Ok (u, user, password), s1)
  /\ world s1 = world s /\ calls s1 = calls s /\ logs s1 = logs s.
Proof.
  intros Hu s1. subst s1.
  unfold Common.SearchEngineSettings_get, Common.SearchEngineSettings_init.
  unfold_effects. cbn. rewrite (nonempty_true u Hu). repeat split.
Qed.

(** X2.  An [init] without URL after an [init] with one replaces the URL by
    the default and keeps the user and password of the earlier call (its own
    user and password are dropped): [get] returns the default URL with the
    old credentials, and [make_connection] sends them to the default URL. *)
Theorem init_without_url_keeps_credentials (s : state) (u : string)
    (user password user' password' : option string) :
  let s1 := snd (Common.SearchEngineSettings_init (Some u) user password s) in
  let s2 := snd (Common.SearchEngineSettings_init None user' password' s1) in
  Common.SearchEngineSettings_get s2 =
    (Ok (Common.DEFAULT_ELASTICSEARCH_URL, user, password), s2)
  /\ (forall a b, user = Some a -> password = Some b -> a <> "" -> b <> "" ->
        fst (Common.make_connection s2) =
          Ok (Common.mkClient [PStr Common.DEFAULT_ELASTICSEARCH_URL] (Some (a, b))
                (Some (config_get "elasticsearch_timeout" (PInt 10))))).
Proof.
  cbn zeta. split; [reflexivity|].
  intros a b -> -> Ha Hb.
  unfold Common.make_connection, Common.SearchEngineSettings_get,
    Common.SearchEngineSettings_init.
  unfold_effects. cbn. rewrite (nonempty_true a Ha), (nonempty_true b Hb). reflexivity.
Qed.

(** X3.  With initialised settings and a non-empty URL, [make_connection]
    returns a client for exactly that URL, with the timeout of the
    configuration key [elasticsearch_timeout] (10 when unset); it carries
    credentials only when user and password are both set and non-empty (a
    user without password is dropped); the state is left as it is, so no
    request is sent. *)
Theorem make_connection_builds_client (s : state) (u : string) :
  _is_initialised (settings s) = true ->
  _url (settings s) = Some u ->
  u <> "" ->
  Common.make_connection s =
    (Ok (Common.mkClient [PStr u]
           (match _user (settings s), _password (settings s) with
            | Some a, Some b =>
                if Common.nonempty a && Common.nonempty b then Some (a, b) else None
            | _, _ => None
            end)
           (Some (config_get "elasticsearch_timeout" (PInt 10)))), s).
Proof.
  intros Hi Hu Hne. unfold Common.make_connection, Common.SearchEngineSettings_get.
  unfold_effects. cbn. rewrite Hi, Hu. cbn. rewrite (nonempty_true u Hne). cbn.
  destruct (_user (settings s)) as [a|], (_password (settings s)) as [b|];
    try reflexivity.
  rewrite (nonempty_true u Hne). cbn.
  destruct (Common.nonempty a && Common.nonempty b); reflexivity.
Qed.

(** X4.  [is_available] never raises and never changes the settings.  It
    answers [True] exactly when [make_connection] succeeds and the engine
    answers the info request.  When [make_connection] succeeds it sends
    exactly that one info request, and the engine is as that request leaves
    it; when [make_connection] raises it sends nothing and the engine is
    untouched. *)
Theorem is_available_never_raises (s : state) :
  exists b : bool,
    fst (Common.is_available s) = Ok b
    /\ settings (snd (Common.is_available s)) = settings s
    /\ (b = true <->
        exists c w', Common.make_connection s = (Ok c, s)
                     /\ serve EsInfo (world s) = (Ok tt, w'))
    /\ issued Common.is_available s =
         match fst (Common.make_connection s) with
         | Ok _ => [(EsInfo, answer (fst (serve EsInfo (world s))))]
         | Raised _ => []
         end
    /\ world (snd (Common.is_available s)) =
         match fst (Common.make_connection s) with
         | Ok _ => snd (serve EsInfo (world s))
         | Raised _ => world s
         end.
Proof.
  unfold Common.is_available, issued.
  pose proof (get_leaves_state s) as Hg.
  unfold Common.make_connection. unfold_effects.
  destruct (Common.SearchEngineSettings_get s) as [[[[u usr] pw]|e] s0] eqn:E;
    cbn in Hg; subst s0; cbn.
  - destruct (serve EsInfo (world s)) as [[[]|e] w'] eqn:Es; cbn.
    + exists true. rewrite drop_app_length. repeat split; eauto.
    + exists false. rewrite drop_app_length. repeat split; try discriminate.
      intros (c & w2 & _ & Hs). congruence.
  - exists false. rewrite drop_all. repeat split; try discriminate.
    intros (c & w2 & Hc & _). discriminate.
Qed.

End MoreCommonFacts.

(** X1 at work. *)
Lemma settings_round_trip_witness :
  let s1 := snd (@Common.SearchEngineSettings_init RefEngine.engine
                   (Some "http://es:9200") (Some "ckan") None (RefEngine.boot ∅)) in
  @Common.SearchEngineSettings_get RefEngine.engine s1
    = (Ok ("http://es:9200", Some "ckan", None), s1)
  /\ world s1 = world (RefEngine.boot ∅)
  /\ calls s1 = calls (RefEngine.boot ∅)
  /\ logs s1 = logs (RefEngine.boot ∅).
Proof.
  apply (@settings_round_trip RefEngine.engine (RefEngine.boot ∅) "http://es:9200"
           (Some "ckan") None).
  discriminate.
Defined.

(** X2 at work: the credentials of the first call reach the default URL. *)
Lemma init_without_url_keeps_credentials_witness :
  let s1 := snd (@Common.SearchEngineSettings_init RefEngine.engine
                   (Some "http://es:9200") (Some "ckan") (Some "secret")
                   (RefEngine.boot ∅)) in
  let s2 := snd (@Common.SearchEngineSettings_init RefEngine.engine None None None s1) in
  fst (@Common.make_connection RefEngine.engine RefEngine.no_config s2) =
    Ok (Common.mkClient [PStr Common.DEFAULT_ELASTICSEARCH_URL] (Some ("ckan", "secret"))
          (Some (PInt 10))).
Proof.
  apply (proj2 (@init_without_url_keeps_credentials RefEngine.engine RefEngine.no_config
                  (RefEngine.boot ∅) "http://es:9200" (Some "ckan") (Some "secret")
                  None None) "ckan" "secret");
    (reflexivity || discriminate).
Defined.

(** X3 at work. *)
Lemma make_connection_builds_client_witness :
  @Common.make_connection RefEngine.engine RefEngine.no_config
    (@mkState RefEngine.engine configured ∅ [] []) =
    (Ok (Common.mkClient [PStr "http://es:9200"] (Some ("ckan", "secret"))
           (Some (PInt 10))),
     @mkState RefEngine.engine configured ∅ [] []).
Proof.
  apply (@make_connection_builds_client RefEngine.engine RefEngine.no_config
           (@mkState RefEngine.engine configured ∅ [] []) "http://es:9200");
    (reflexivity || discriminate).
Defined.

(* ===================================================================== *)
(** ** Further properties: the writers and module functions, any engine *)
(* ===================================================================== *)

Section MoreWriterFacts.
Context `{Engine} `{Host}.

(** X5.  The writer of index.py given a mapping without an ['id'] key: the
    [KeyError] is raised before any request is built, logged and wrapped, so
    insert and update raise [SearchIndexError("Error indexing package: 'id'")]
    and remove raises [SearchIndexError("Error removing package: 'id'")],
    with the engine and the request record untouched. *)
Theorem index_writers_reject_missing_id (self : Index.index_obj) (d : dict)
    (defer_commit : bool) (s : state) :
  Index.cls self = Index.PackageSearchIndex ->
  dict_get "id" d = None ->
  let logged :=
    mkState (settings s) (world s) (calls s) (logs s ++ [Log ERROR "'id'" []]) in
  Index.update_dict self d defer_commit s =
    (Raised (Exc SearchIndexError "Error indexing package: 'id'"), logged)
  /\ Index.insert_dict self d s =
    (Raised (Exc SearchIndexError "Error indexing package: 'id'"), logged)
  /\ Index.remove_dict self d s =
    (Raised (Exc SearchIndexError "Error removing package: 'id'"), logged).
Proof.
  intros Hc Hid. destruct self as [c es]; cbn in Hc; subst c.
  unfold Index.insert_dict, Index.update_dict, Index.remove_dict,
    Index.index_package, subscript.
  cbn. rewrite Hid. repeat split.
Qed.

(** X6.  [update_dict] of index.py's writer sends the index request under
    the document's id first; the refresh follows only when that request
    succeeded and [defer_commit] is false, and never otherwise.  When the
    requests sent succeed, the call returns. *)
Theorem index_refresh_follows_successful_index (self : Index.index_obj)
    (d : dict) (id : pyval) (defer_commit : bool) (s : state) :
  Index.cls self = Index.PackageSearchIndex ->
  dict_get "id" d = Some id ->
  let first := serve (EsIndex Index.index_name (Some id) d) (world s) in
  let second := serve (EsIndicesRefresh Index.index_name) (snd first) in
  issued (Index.update_dict self d defer_commit) s =
    (EsIndex Index.index_name (Some id) d, answer (fst first))
      :: match fst first with
         | Ok _ => if defer_commit then []
                   else [(EsIndicesRefresh Index.index_name, answer (fst second))]
         | Raised _ => []
         end
  /\ (fst first = Ok tt -> (defer_commit = true \/ fst second = Ok tt) ->
      fst (Index.update_dict self d defer_commit s) = Ok tt).
Proof.
  intros Hc Hid. destruct self as [c es]; cbn in Hc; subst c.
  unfold Index.update_dict, Index.index_package, subscript, issued.
  cbn. rewrite Hid. unfold_effects. cbn.
  destruct (serve (EsIndex Index.index_name (Some id) d) (world s)) as [[[]|e] w] eqn:E1; cbn.
  - destruct defer_commit; cbn.
    + rewrite drop_app_length. split; reflexivity.
    + destruct (serve (EsIndicesRefresh Index.index_name) w) as [[[]|e] w2] eqn:E2; cbn;
        rewrite <- app_assoc, drop_app_length; (split; [reflexivity|]).
      * reflexivity.
      * intros _ [|]; discriminate.
  - rewrite drop_app_length. split; [reflexivity|]. discriminate.
Qed.

(** X7.  [remove_dict] of index.py's writer sends one delete request and
    never a refresh.  When the engine carries out the delete, the call still
    raises [SearchIndexError] (the unbound name [defer_commit]), the
    document being gone; the call returns normally only when the engine
    answered not-found. *)
Theorem index_remove_returns_only_on_not_found (self : Index.index_obj)
    (d : dict) (id : pyval) (s : state) :
  Index.cls self = Index.PackageSearchIndex ->
  dict_get "id" d = Some id ->
  let first := serve (EsDelete Index.index_name id) (world s) in
  issued (Index.remove_dict self d) s =
    [(EsDelete Index.index_name id, answer (fst first))]
  /\ world (snd (Index.remove_dict self d s)) = snd first
  /\ (fst first = Ok tt ->
      fst (Index.remove_dict self d s) = Raised defer_commit_unbound)
  /\ (fst (Index.remove_dict self d s) = Ok tt ->
      exists e, fst first = Raised e /\ is_not_found e = true).
Proof.
  intros Hc Hid. destruct self as [c es]; cbn in Hc; subst c.
  unfold Index.remove_dict, subscript, load_global, issued.
  cbn. rewrite Hid. unfold_effects. cbn.
  destruct (serve (EsDelete Index.index_name id) (world s)) as [[[]|e] w] eqn:E1; cbn.
  - rewrite drop_app_length. repeat split. discriminate.
  - destruct (is_not_found e) eqn:Hnf; cbn; rewrite ?Hid; cbn; rewrite drop_app_length;
      repeat split; try discriminate; eauto.
Qed.

(** X8.  [notify] never reaches the engine: it asks [index_for] with the
    class of the entity, which is not the registered string, so every
    operation lands on a [NoopSearchIndex].  For every entity and operation
    the engine, the request record and the settings are unchanged; the call
    returns unless [as_dict()] itself raises; for an entity that is not a
    package it does nothing at all. *)
Theorem notify_never_reaches_engine (e : Init.entity) (operation : string)
    (s : state) :
  calls (snd (Init.notify e operation s)) = calls s
  /\ world (snd (Init.notify e operation s)) = world s
  /\ settings (snd (Init.notify e operation s)) = settings s
  /\ (forall d, Init.as_dict e = Ok d -> fst (Init.notify e operation s) = Ok tt)
  /\ (Init.isinstance_Package e = false -> Init.notify e operation s = (Ok tt, s)).
Proof.
  unfold Init.notify, Init.index_for, Init.new. cbn. unfold_effects. cbn.
  destruct (Init.isinstance_Package e); cbn.
  - destruct (String.eqb operation "new");
      [|destruct (String.eqb operation "changed");
        [|destruct (String.eqb operation "deleted")]];
      cbn; destruct (Init.as_dict e) as [d|x]; cbn; repeat split;
      try discriminate; intros d' [=]; reflexivity.
  - repeat split.
Qed.

(** X9.  The module-level [clear], [clear_all] and [show] of __init__.py
    read the global name [es], which the module never binds.  For every
    argument and state: [clear] and [clear_all] send no request, leave the
    engine as it is, log the [NameError] and return; [show] raises the
    [NameError] (its only handler is for [NotFoundError]) and changes
    nothing, whatever the engine's get would answer. *)
Theorem init_module_functions_never_reach_engine (document_id index_name : string)
    (s : state) :
  Init.clear document_id index_name s =
    (Ok tt, mkState (settings s) (world s) (calls s)
              (logs s ++ [Log ERROR "Error removing document ID {} from index {}: {}"
                            [PStr document_id; PStr index_name;
                             PStr (exc_str es_unbound)]]))
  /\ Init.clear_all index_name s =
    (Ok tt, mkState (settings s) (world s) (calls s)
              (logs s ++ [Log ERROR "Error clearing index {}: {}"
                            [PStr index_name; PStr (exc_str es_unbound)]]))
  /\ (forall get_source : string -> string -> M state dict,
        Init.show get_source document_id index_name s = (Raised es_unbound, s)).
Proof. repeat split. Qed.

End MoreWriterFacts.

(** X5 at work: a package without id. *)
Lemma index_writers_reject_missing_id_witness :
  @Index.update_dict RefEngine.engine RefEngine.no_config index_writer
    [("title", PStr "Rivers")] false (RefEngine.boot one_lake) =
    (Raised (Exc SearchIndexError "Error indexing package: 'id'"),
     @mkState RefEngine.engine Common.class_defaults one_lake []
       ([] ++ [Log ERROR "'id'" []])).
Proof.
  apply (@index_writers_reject_missing_id RefEngine.engine RefEngine.no_config
           index_writer [("title", PStr "Rivers")] false (RefEngine.boot one_lake));
    reflexivity.
Defined.

(** X6 at work: index, then refresh. *)
Lemma index_refresh_follows_successful_index_witness :
  fst (@Index.update_dict RefEngine.engine RefEngine.no_config index_writer rivers false
         (RefEngine.boot one_lake)) = Ok tt.
Proof.
  apply (proj2 (@index_refresh_follows_successful_index RefEngine.engine
                  RefEngine.no_config index_writer rivers (PStr "pkg-1") false
                  (RefEngine.boot one_lake) eq_refl eq_refl));
    [reflexivity|right; reflexivity].
Defined.

(** X7 at work: removing a stored document deletes it and raises. *)
Lemma index_remove_returns_only_on_not_found_witness :
  fst (@Index.remove_dict RefEngine.engine RefEngine.no_config index_writer lakes
         (RefEngine.boot one_lake)) = Raised defer_commit_unbound.
Proof.
  apply (@index_remove_returns_only_on_not_found RefEngine.engine RefEngine.no_config
           index_writer lakes (PStr "pkg-0") (RefEngine.boot one_lake) eq_refl eq_refl).
  reflexivity.
Defined.

(** X8 at work: a new package is announced, nothing is sent. *)
Lemma notify_never_reaches_engine_witness :
  fst (@Init.notify RefEngine.engine package_entity "new" (RefEngine.boot one_lake)) = Ok tt.
Proof.
  apply (@notify_never_reaches_engine RefEngine.engine package_entity "new"
           (RefEngine.boot one_lake)) with (d := rivers).
  reflexivity.
Defined.

(* ===================================================================== *)
(** ** Further properties: the writers over the reference engine *)
(* ===================================================================== *)

Section MoreRefEngineFacts.
Import RefEngine.
#[local] Existing Instance engine.
Context `{Host}.

Lemma ref_indices_delete (index : pyval) (idx : string) (w : indices) :
  path_of index = Part idx ->
  @serve engine (EsIndicesDelete index [400; 404]%Z) w = (Ok tt, delete idx w).
Proof.
  intros Hi. unfold serve, engine, ref_serve. rewrite Hi.
  destruct (w !! idx) as [docs|] eqn:E; [reflexivity|].
  rewrite (delete_id w idx E). reflexivity.
Qed.

Lemma ref_indices_create (index : pyval) (idx : string) (w : indices) :
  path_of index = Part idx -> w !! idx = None ->
  @serve engine (EsIndicesCreate index) w = (Ok tt, <[idx := ∅]> w).
Proof.
  intros Hi E. unfold serve, engine, ref_serve. rewrite Hi, E. reflexivity.
Qed.

Lemma ref_delete_present (index : pyval) (idx k : string) (w : indices) (old : dict) :
  path_of index = Part idx -> k <> "" -> docs_of idx w !! k = Some old ->
  @serve engine (EsDelete index (PStr k)) w =
    (Ok tt, <[idx := delete k (docs_of idx w)]> w).
Proof.
  intros Hi Hk Hl. unfold serve, engine, ref_serve. rewrite Hi, (path_of_nonempty k Hk).
  unfold docs_of in Hl |- *. destruct (w !! idx) as [docs|]; cbn in Hl |- *.
  - rewrite Hl. reflexivity.
  - rewrite lookup_empty in Hl. discriminate.
Qed.

Lemma ref_update_present (index : pyval) (idx k : string) (d : dict) (w : indices)
    (old : dict) :
  path_of index = Part idx -> k <> "" -> docs_of idx w !! k = Some old ->
  @serve engine (EsUpdate index (PStr k) d) w =
    (Ok tt, <[idx := <[k := merge_doc d old]> (docs_of idx w)]> w).
Proof.
  intros Hi Hk Hl. unfold serve, engine, ref_serve. rewrite Hi, (path_of_nonempty k Hk).
  unfold docs_of in Hl |- *. destruct (w !! idx) as [docs|]; cbn in Hl |- *.
  - rewrite Hl. reflexivity.
  - rewrite lookup_empty in Hl. discriminate.
Qed.

Lemma ref_index_without_id (index : pyval) (idx : string) (d : dict) (w : indices) :
  path_of index = Part idx ->
  @serve engine (EsIndex index None d) w =
    (Ok tt, <[idx := <[fresh (dom (docs_of idx w)) := d]> (docs_of idx w)]> w).
Proof. intros Hi. unfold serve, engine, ref_serve. rewrite Hi. reflexivity. Qed.

Lemma fresh_key_unused (docs : gmap string dict) : docs !! fresh (dom docs) = None.
Proof. apply not_elem_of_dom. apply is_fresh. Qed.

(** X10.  [SearchIndex.clear] of index.py on the reference engine: whether
    or not the index exists, the call returns, the index exists afterwards
    and holds no document, every other index is as before, and exactly the
    delete and the create request were sent. *)
Theorem index_clear_empties_index (self : Index.index_obj) (s : state)
    (idx : string) :
  path_of Index.index_name = Part idx ->
  fst (Index.clear self s) = Ok tt
  /\ world (snd (Index.clear self s)) = <[idx := ∅]> (world s)
  /\ docs_of idx (world (snd (Index.clear self s))) = ∅
  /\ (forall other, other <> idx ->
        world (snd (Index.clear self s)) !! other = world s !! other)
  /\ map fst (issued (Index.clear self) s) =
       [EsIndicesDelete Index.index_name [400; 404]%Z;
        EsIndicesCreate Index.index_name].
Proof.
  intros Hi.
  assert (Hrun : Index.clear self s =
    (Ok tt, mkState (settings s) (<[idx := ∅]> (world s))
              ((calls s ++ [(EsIndicesDelete Index.index_name [400; 404]%Z, None)])
                 ++ [(EsIndicesCreate Index.index_name, None)]) (logs s))).
  { unfold Index.clear. unfold_effects.
    rewrite (ref_indices_delete _ idx (world s) Hi). cbn [world].
    rewrite (ref_indices_create _ idx _ Hi (lookup_delete_eq (world s) idx)).
    cbn. rewrite insert_delete_eq. reflexivity. }
  unfold issued. rewrite Hrun. cbn.
  split; [reflexivity|]. split; [reflexivity|].
  split; [apply docs_of_insert|].
  split; [intros other Hne; apply lookup_insert_ne; congruence|].
  rewrite <- app_assoc, drop_app_length. reflexivity.
Qed.

(** X11.  [update_dict] of index.py's writer on the reference engine is an
    upsert where the last write wins: writing [d] and then [d'] under the
    same id leaves the engine exactly as writing [d'] alone, and the second
    write does not change the number of documents. *)
Theorem index_update_last_write_wins (self : Index.index_obj) (d d' : dict)
    (defer defer' : bool) (s : state) (idx k : string) :
  Index.cls self = Index.PackageSearchIndex ->
  path_of Index.index_name = Part idx ->
  dict_get "id" d = Some (PStr k) -> dict_get "id" d' = Some (PStr k) -> k <> "" ->
  let s1 := snd (Index.update_dict self d defer s) in
  fst (Index.update_dict self d' defer' s1) = Ok tt
  /\ world (snd (Index.update_dict self d' defer' s1)) =
       world (snd (Index.update_dict self d' defer' s))
  /\ size (docs_of idx (world (snd (Index.update_dict self d' defer' s1)))) =
       size (docs_of idx (world s1)).
Proof.
  intros Hc Hi Hd Hd' Hk s1.
  destruct (ref_index_update_upserts self d defer s idx k Hc Hi Hd Hk) as (_ & Hw1 & Hl1).
  destruct (ref_index_update_upserts self d' defer' s1 idx k Hc Hi Hd' Hk) as (Ho2 & Hw2 & _).
  destruct (ref_index_update_upserts self d' defer' s idx k Hc Hi Hd' Hk) as (_ & Hw3 & _).
  split; [exact Ho2|]. rewrite Hw2, Hw3. subst s1.
  split.
  - rewrite Hw1. rewrite docs_of_insert.
    change (@World engine) with (gmap string (gmap string dict)) in *.
    rewrite insert_insert_eq. rewrite insert_insert_eq. reflexivity.
  - rewrite docs_of_insert.
    apply map_size_insert_Some with (x := d'). eauto.
Qed.

(** X12.  On the reference engine, [update_dict] followed by [remove_dict]
    of the same document through index.py's writer takes the document out
    again (the index holds what it held before, minus that id), although the
    remove raises [SearchIndexError] after the delete was carried out. *)
Theorem index_update_then_remove (self : Index.index_obj) (d : dict)
    (defer : bool) (s : state) (idx k : string) :
  Index.cls self = Index.PackageSearchIndex ->
  path_of Index.index_name = Part idx ->
  dict_get "id" d = Some (PStr k) -> k <> "" ->
  let s1 := snd (Index.update_dict self d defer s) in
  let r := Index.remove_dict self d s1 in
  fst r = Raised defer_commit_unbound
  /\ docs_of idx (world (snd r)) = delete k (docs_of idx (world s))
  /\ docs_of idx (world (snd r)) !! k = None.
Proof.
  intros Hc Hi Hd Hk s1 r.
  destruct (ref_index_update_upserts self d defer s idx k Hc Hi Hd Hk) as (_ & Hw1 & Hl1).
  fold s1 in Hw1, Hl1.
  pose proof (ref_delete_present _ idx k (world s1) d Hi Hk Hl1) as Hdel.
  assert (Hrun : r = (Raised defer_commit_unbound,
                      mkState (settings s1)
                        (<[idx := delete k (docs_of idx (world s1))]> (world s1))
                        (calls s1 ++ [(EsDelete Index.index_name (PStr k), None)])
                        (logs s1 ++ [Log ERROR "name 'defer_commit' is not defined" []]))).
  { subst r. destruct self as [c es]; cbn in Hc; subst c.
    unfold Index.remove_dict, subscript, load_global. cbn. rewrite Hd.
    unfold_effects. rewrite Hdel. reflexivity. }
  rewrite Hrun. cbn. split; [reflexivity|].
  rewrite docs_of_insert. rewrite Hw1, docs_of_insert.
  rewrite delete_insert_eq. split; [reflexivity|]. apply lookup_delete_eq.
Qed.

Lemma init_insert_run (self : Init.index_obj) (d : dict) (s : state) :
  Init.cls self <> Init.NoopSearchIndex ->
  let docs := docs_of Init.ELASTICSEARCH_INDEX (world s) in
  Init.insert_dict self d s =
    (Ok tt, mkState (settings s)
              (<[Init.ELASTICSEARCH_INDEX := <[fresh (dom docs) := d]> docs]> (world s))
              (calls s ++ [(EsIndex (PStr Init.ELASTICSEARCH_INDEX) None d, None)])
              (logs s)).
Proof.
  intros Hc docs. destruct self as [[] es]; cbn in Hc; try congruence;
    unfold Init.insert_dict; cbn [Init.cls]; unfold_effects;
    rewrite (ref_index_without_id (PStr Init.ELASTICSEARCH_INDEX)
               Init.ELASTICSEARCH_INDEX d (world s) eq_refl); reflexivity.
Qed.

(** X13.  [insert_dict] of __init__.py on the reference engine, for every
    document and every engine state: the call returns, the document is
    stored under an id that was not in use, every document stored before is
    still there unchanged, and the index holds one document more.  It never
    overwrites, whatever ['id'] the document carries. *)
Theorem init_insert_adds_fresh_document (self : Init.index_obj) (d : dict)
    (s : state) :
  Init.cls self <> Init.NoopSearchIndex ->
  let docs := docs_of Init.ELASTICSEARCH_INDEX (world s) in
  let docs' := docs_of Init.ELASTICSEARCH_INDEX
                 (world (snd (Init.insert_dict self d s))) in
  fst (Init.insert_dict self d s) = Ok tt
  /\ docs' = <[fresh (dom docs) := d]> docs
  /\ docs !! fresh (dom docs) = None
  /\ size docs' = S (size docs)
  /\ (forall k x, docs !! k = Some x -> docs' !! k = Some x).
Proof.
  intros Hc docs docs'. subst docs'. rewrite (init_insert_run self d s Hc).
  cbn [fst snd world]. rewrite docs_of_insert. fold docs.
  pose proof (fresh_key_unused docs) as Hf.
  split; [reflexivity|]. split; [reflexivity|]. split; [exact Hf|].
  split; [apply map_size_insert_None; exact Hf|].
  intros k x Hk. rewrite lookup_insert_ne; [exact Hk|].
  intros Heq. rewrite Heq in Hf. congruence.
Qed.

(** X14.  On the reference engine a document written with [insert_dict] of
    __init__.py cannot be taken out with its [remove_dict]: when the
    document's id was not a key of the index and the engine's id differs
    from it, the remove raises [ElasticsearchIndexError] (not found) and the
    document stays stored under the engine's id. *)
Theorem init_insert_then_remove_misses (self : Init.index_obj) (d : dict)
    (s : state) (k : string) :
  Init.cls self <> Init.NoopSearchIndex ->
  dict_get "id" d = Some (PStr k) -> k <> "" ->
  let docs := docs_of Init.ELASTICSEARCH_INDEX (world s) in
  docs !! k = None ->
  fresh (dom docs) <> k ->
  let s1 := snd (Init.insert_dict self d s) in
  (exists e, is_not_found e = true /\
     fst (Init.remove_dict self d s1) =
       Raised (Exc ElasticsearchIndexError ("Error removing document: " +:+ exc_str e)))
  /\ docs_of Init.ELASTICSEARCH_INDEX (world (snd (Init.remove_dict self d s1)))
       !! fresh (dom docs) = Some d.
Proof.
  intros Hc Hid Hk docs Habs Hne s1.
  assert (Hw1 : docs_of Init.ELASTICSEARCH_INDEX (world s1) = <[fresh (dom docs) := d]> docs).
  { subst s1. rewrite (init_insert_run self d s Hc). cbn [fst snd world].
    apply docs_of_insert. }
  assert (Habs1 : docs_of Init.ELASTICSEARCH_INDEX (world s1) !! k = None).
  { rewrite Hw1. rewrite lookup_insert_ne by exact Hne. exact Habs. }
  destruct (ref_init_remove_absent self d s1 k Hc Hid Hk Habs1) as (e & Hnf & Hr & Hw).
  split; [exists e; split; assumption|].
  rewrite Hw, Hw1. apply lookup_insert_eq.
Qed.

(** X15.  On the reference engine, for a document whose id is a key of the
    index, the writer of __init__.py works by id: [remove_dict] returns and
    deletes exactly that key, [update_dict] returns and replaces the source
    under that key by the merge of the new fields into the old ones; each
    sends a single request and leaves every other document alone. *)
Theorem init_present_id_update_and_remove (self : Init.index_obj) (d : dict)
    (s : state) (k : string) (old : dict) :
  Init.cls self <> Init.NoopSearchIndex ->
  dict_get "id" d = Some (PStr k) -> k <> "" ->
  let docs := docs_of Init.ELASTICSEARCH_INDEX (world s) in
  docs !! k = Some old ->
  (fst (Init.remove_dict self d s) = Ok tt
   /\ docs_of Init.ELASTICSEARCH_INDEX (world (snd (Init.remove_dict self d s)))
        = delete k docs
   /\ issued (Init.remove_dict self d) s =
        [(EsDelete (PStr Init.ELASTICSEARCH_INDEX) (PStr k), None)])
  /\ (fst (Init.update_dict self d s) = Ok tt
      /\ docs_of Init.ELASTICSEARCH_INDEX (world (snd (Init.update_dict self d s)))
           = <[k := merge_doc d old]> docs
      /\ issued (Init.update_dict self d) s =
           [(EsUpdate (PStr Init.ELASTICSEARCH_INDEX) (PStr k) d, None)]).
Proof.
  intros Hc Hid Hk docs Hl.
  assert (Hg : dict_get_or_none "id" d = PStr k)
    by (unfold dict_get_or_none; rewrite Hid; reflexivity).
  pose proof (ref_delete_present (PStr Init.ELASTICSEARCH_INDEX) Init.ELASTICSEARCH_INDEX
                k (world s) old eq_refl Hk Hl) as Hdel.
  pose proof (ref_update_present (PStr Init.ELASTICSEARCH_INDEX) Init.ELASTICSEARCH_INDEX
                k d (world s) old eq_refl Hk Hl) as Hupd.
  destruct self as [[] es]; cbn in Hc; try congruence;
    unfold Init.remove_dict, Init.update_dict, issued; cbn [Init.cls]; rewrite Hg;
    unfold_effects; rewrite Hdel, Hupd; cbn;
    rewrite !docs_of_insert, !drop_app_length; repeat split.
Qed.

End MoreRefEngineFacts.

(** X10 at work: clearing the index that holds one document. *)
Lemma index_clear_empties_index_witness :
  fst (@Index.clear RefEngine.engine RefEngine.no_config index_writer
         (RefEngine.boot one_lake)) = Ok tt
  /\ RefEngine.docs_of "ckan"
       (world (snd (@Index.clear RefEngine.engine RefEngine.no_config index_writer
                      (RefEngine.boot one_lake)))) = ∅.
Proof.
  destruct (@index_clear_empties_index RefEngine.no_config index_writer
              (RefEngine.boot one_lake) "ckan" eq_refl) as (Hok & _ & Hempty & _).
  split; [exact Hok|exact Hempty].
Defined.

(** X11 at work: two writes under ['pkg-1']. *)
Lemma index_update_last_write_wins_witness :
  let s1 := snd (@Index.update_dict RefEngine.engine RefEngine.no_config index_writer
                   rivers false (RefEngine.boot one_lake)) in
  world (snd (@Index.update_dict RefEngine.engine RefEngine.no_config index_writer
                [("id", PStr "pkg-1"); ("title", PStr "Streams")] false s1)) =
  world (snd (@Index.update_dict RefEngine.engine RefEngine.no_config index_writer
                [("id", PStr "pkg-1"); ("title", PStr "Streams")] false
                (RefEngine.boot one_lake))).
Proof.
  apply (@index_update_last_write_wins RefEngine.no_config index_writer rivers
           [("id", PStr "pkg-1"); ("title", PStr "Streams")] false false
           (RefEngine.boot one_lake) "ckan" "pkg-1");
    (reflexivity || discriminate).
Defined.

(** X12 at work. *)
Lemma index_update_then_remove_witness :
  let s1 := snd (@Index.update_dict RefEngine.engine RefEngine.no_config index_writer
                   rivers false (RefEngine.boot one_lake)) in
  RefEngine.docs_of "ckan"
    (world (snd (@Index.remove_dict RefEngine.engine RefEngine.no_config index_writer
                   rivers s1))) !! "pkg-1" = None.
Proof.
  apply (@index_update_then_remove RefEngine.no_config index_writer rivers false
           (RefEngine.boot one_lake) "ckan" "pkg-1");
    (reflexivity || discriminate).
Defined.

(** X13 at work: a document whose id is already a key is stored again. *)
Lemma init_insert_adds_fresh_document_witness :
  size (RefEngine.docs_of "ckan"
          (world (snd (@Init.insert_dict RefEngine.engine init_writer lakes
                         (RefEngine.boot one_lake))))) =
  S (size (RefEngine.docs_of "ckan" (world (RefEngine.boot one_lake)))).
Proof.
  apply (@init_insert_adds_fresh_document init_writer lakes (RefEngine.boot one_lake)).
  discriminate.
Defined.

(** X14 at work. *)
Lemma init_insert_then_remove_misses_witness :
  let docs := RefEngine.docs_of "ckan" (world (RefEngine.boot one_lake)) in
  let s1 := snd (@Init.insert_dict RefEngine.engine init_writer rivers
                   (RefEngine.boot one_lake)) in
  RefEngine.docs_of "ckan"
    (world (snd (@Init.remove_dict RefEngine.engine init_writer rivers s1)))
    !! fresh (dom docs) = Some rivers.
Proof.
  assert (Hfresh : fresh (dom (RefEngine.docs_of Init.ELASTICSEARCH_INDEX
                                 (world (RefEngine.boot one_lake)))) <> "pkg-1")
    by (vm_compute; discriminate).
  exact (proj2 (@init_insert_then_remove_misses init_writer rivers
                  (RefEngine.boot one_lake) "pkg-1"
                  ltac:(discriminate) eq_refl ltac:(discriminate) eq_refl Hfresh)).
Defined.

(** X15 at work: removing the stored document by its id. *)
Lemma init_present_id_update_and_remove_witness :
  fst (@Init.remove_dict RefEngine.engine init_writer lakes (RefEngine.boot one_lake))
    = Ok tt
  /\ RefEngine.docs_of "ckan"
       (world (snd (@Init.remove_dict RefEngine.engine init_writer lakes
                      (RefEngine.boot one_lake))))
     = delete "pkg-0" (RefEngine.docs_of "ckan" (world (RefEngine.boot one_lake))).
Proof.
  destruct (@init_present_id_update_and_remove init_writer lakes
              (RefEngine.boot one_lake) "pkg-0" lakes) as ((Hok & Hdocs & _) & _);
    try reflexivity; try discriminate.
  split; [exact Hok|exact Hdocs].
Defined.

(* ===================================================================== *)
(** ** Further properties: pre-processing (index.py) and decoding (common.py) *)
(* ===================================================================== *)

Section DictFacts.

Lemma dict_get_remove (k k' : string) (d : dict) :
  dict_get k (dict_remove k' d) = if String.eqb k k' then None else dict_get k d.
Proof.
  induction d as [|[k0 v] d IH]; cbn.
  - destruct (String.eqb k k'); reflexivity.
  - destruct (String.eqb k' k0) eqn:E0.
    + rewrite IH. destruct (String.eqb k k') eqn:E; [reflexivity|].
      apply String.eqb_eq in E0; subst k0. rewrite E. reflexivity.
    + cbn. destruct (String.eqb k k0) eqn:E1.
      * apply String.eqb_eq in E1; subst k0.
        rewrite String.eqb_sym in E0. rewrite E0. reflexivity.
      * exact IH.
Qed.

Lemma dict_get_set (k k' : string) (v : pyval) (d : dict) :
  dict_get k (dict_set k' v d) = if String.eqb k k' then Some v else dict_get k d.
Proof.
  induction d as [|[k0 v0] d IH]; cbn.
  - destruct (String.eqb k k'); reflexivity.
  - destruct (String.eqb k' k0) eqn:E0; cbn.
    + apply String.eqb_eq in E0; subst k0. destruct (String.eqb k k'); reflexivity.
    + destruct (String.eqb k k0) eqn:E1.
      * apply String.eqb_eq in E1; subst k0.
        rewrite String.eqb_sym in E0. rewrite E0. reflexivity.
      * exact IH.
Qed.

End DictFacts.

Section PreprocessFacts.
Variable str_of : pyval -> string.
Local Abbreviation preprocess := (Index.preprocess_package_dict_for_elasticsearch str_of).

Lemma convert_date_ok (f : string) (d d' : dict) :
  Index.convert_date f d = Ok d' -> d' = d /\ dict_get f d = None.
Proof.
  unfold Index.convert_date, dict_has. destruct (dict_get f d); cbn; [discriminate|].
  intros [= <-]. split; reflexivity.
Qed.

(** X16.  A package mapping that carries [metadata_created] or
    [metadata_modified] cannot be pre-processed: the date test names
    [datetime], which index.py never imports, so the call raises
    [NameError], whatever the value under the key. *)
Theorem preprocess_dates_raise_name_error (d : dict) :
  dict_has "metadata_created" d = true \/ dict_has "metadata_modified" d = true ->
  preprocess d = Raised datetime_unbound.
Proof.
  unfold Index.preprocess_package_dict_for_elasticsearch, Index.convert_date.
  intros [Hc|Hm].
  - rewrite Hc. reflexivity.
  - destruct (dict_has "metadata_created" d); [reflexivity|]. rewrite Hm. reflexivity.
Qed.

(** The steps of a returning call, one by one. *)
Lemma preprocess_ok (d r : dict) :
  preprocess d = Ok r ->
  dict_get "metadata_created" d = None /\ dict_get "metadata_modified" d = None /\
  exists d2 d3,
    (match dict_get "tags" d with
     | Some t => exists names, Index.tag_names t = Ok names
                   /\ d2 = dict_set "tags" (PList names)
                             (dict_remove "revision_id" (dict_remove "state" d))
     | None => d2 = dict_remove "revision_id" (dict_remove "state" d)
     end)
    /\ (match dict_get "organization" d with
        | Some o => exists name, getitem o "name" = Ok name
                      /\ d3 = dict_set "organization" name d2
        | None => d3 = d2
        end)
    /\ (match dict_get "extras" d with
        | Some x => exists items texts, iterate x = Ok items
                      /\ comprehension (Index.extra_text str_of) items = Ok texts
                      /\ r = dict_set "extras_search_text" (PStr (join " " texts)) d3
        | None => r = d3
        end).
Proof.
  unfold Index.preprocess_package_dict_for_elasticsearch.
  destruct (Index.convert_date "metadata_created" d) as [d0|] eqn:E0; [|discriminate].
  apply convert_date_ok in E0 as [-> Hc].
  destruct (Index.convert_date "metadata_modified" d) as [d0|] eqn:E1; [|discriminate].
  apply convert_date_ok in E1 as [-> Hm].
  set (d1 := dict_remove "revision_id" (dict_remove "state" d)).
  assert (G1 : forall k, String.eqb k "revision_id" = false -> String.eqb k "state" = false ->
                 dict_get k d1 = dict_get k d).
  { intros k Hr Hs. subst d1. rewrite !dict_get_remove, Hr, Hs. reflexivity. }
  unfold dict_has, dict_get_or_none.
  rewrite (G1 "tags" eq_refl eq_refl).
  intros Hrun. split; [exact Hc|]. split; [exact Hm|].
  destruct (dict_get "tags" d) as [t|] eqn:Et.
  - destruct (Index.tag_names t) as [names|] eqn:En; [|discriminate].
    revert Hrun. rewrite dict_get_set. cbn [String.eqb Ascii.eqb Bool.eqb]. cbn.
    rewrite (G1 "organization" eq_refl eq_refl).
    destruct (dict_get "organization" d) as [o|] eqn:Eo.
    + destruct (getitem o "name") as [name|] eqn:Eg; [|discriminate].
      rewrite !dict_get_set. cbn. rewrite (G1 "extras" eq_refl eq_refl).
      destruct (dict_get "extras" d) as [x|] eqn:Ex.
      * destruct (iterate x) as [items|] eqn:Ei; [|discriminate].
        destruct (comprehension (Index.extra_text str_of) items) as [texts|] eqn:Ect; [|discriminate].
        intros [= <-]. eexists _, _. split; [eexists; split; [reflexivity|reflexivity]|].
        split; [eexists; split; [reflexivity|reflexivity]|]. eexists _, _. repeat split; eauto.
      * intros [= <-]. eexists _, _. split; [eexists; split; [reflexivity|reflexivity]|].
        split; [eexists; split; [reflexivity|reflexivity]|]. reflexivity.
    + rewrite !dict_get_set. cbn. rewrite (G1 "extras" eq_refl eq_refl).
      destruct (dict_get "extras" d) as [x|] eqn:Ex.
      * destruct (iterate x) as [items|] eqn:Ei; [|discriminate].
        destruct (comprehension (Index.extra_text str_of) items) as [texts|] eqn:Ect; [|discriminate].
        intros [= <-]. eexists _, _. split; [eexists; split; [reflexivity|reflexivity]|].
        split; [reflexivity|]. eexists _, _. repeat split; eauto.
      * intros [= <-]. eexists _, _. split; [eexists; split; [reflexivity|reflexivity]|].
        split; reflexivity.
  - revert Hrun. rewrite (G1 "organization" eq_refl eq_refl).
    destruct (dict_get "organization" d) as [o|] eqn:Eo.
    + destruct (getitem o "name") as [name|] eqn:Eg; [|discriminate].
      rewrite !dict_get_set. cbn. rewrite (G1 "extras" eq_refl eq_refl).
      destruct (dict_get "extras" d) as [x|] eqn:Ex.
      * destruct (iterate x) as [items|] eqn:Ei; [|discriminate].
        destruct (comprehension (Index.extra_text str_of) items) as [texts|] eqn:Ect; [|discriminate].
        intros [= <-]. eexists _, _. split; [reflexivity|].
        split; [eexists; split; [reflexivity|reflexivity]|]. eexists _, _. repeat split; eauto.
      * intros [= <-]. eexists _, _. split; [reflexivity|].
        split; [eexists; split; [reflexivity|reflexivity]|]. reflexivity.
    + rewrite (G1 "extras" eq_refl eq_refl).
      destruct (dict_get "extras" d) as [x|] eqn:Ex.
      * destruct (iterate x) as [items|] eqn:Ei; [|discriminate].
        destruct (comprehension (Index.extra_text str_of) items) as [texts|] eqn:Ect; [|discriminate].
        intros [= <-]. eexists _, _. split; [reflexivity|].
        split; [reflexivity|]. eexists _, _. repeat split; eauto.
      * intros [= <-]. eexists _, _. split; [reflexivity|]. split; reflexivity.
Qed.

Lemma preprocess_other_keys (d r : dict) (k : string) :
  preprocess d = Ok r ->
  String.eqb k "tags" = false -> String.eqb k "organization" = false ->
  String.eqb k "extras_search_text" = false ->
  dict_get k r = dict_get k (dict_remove "revision_id" (dict_remove "state" d)).
Proof.
  intros Hrun Ht Ho He.
  apply preprocess_ok in Hrun as (_ & _ & d2 & d3 & H2 & H3 & Hr).
  assert (G2 : dict_get k d2 = dict_get k (dict_remove "revision_id" (dict_remove "state" d))).
  { destruct (dict_get "tags" d); [destruct H2 as (names & _ & ->)|subst d2]; [|reflexivity].
    rewrite dict_get_set, Ht. reflexivity. }
  assert (G3 : dict_get k d3 = dict_get k d2).
  { destruct (dict_get "organization" d); [destruct H3 as (name & _ & ->)|subst d3]; [|reflexivity].
    rewrite dict_get_set, Ho. reflexivity. }
  destruct (dict_get "extras" d); [destruct Hr as (items & texts & _ & _ & ->)|subst r].
  - rewrite dict_get_set, He, G3, G2. reflexivity.
  - rewrite G3, G2. reflexivity.
Qed.

Lemma preprocess_kept_keys (d r : dict) :
  preprocess d = Ok r ->
  dict_get "state" r = None
  /\ dict_get "revision_id" r = None
  /\ dict_get "metadata_created" d = None
  /\ dict_get "metadata_modified" d = None
  /\ (forall k, k ∉ ["state"; "revision_id"; "tags"; "organization"; "extras_search_text"] ->
        dict_get k r = dict_get k d).
Proof.
  intros Hrun.
  split; [rewrite (preprocess_other_keys d r "state" Hrun eq_refl eq_refl eq_refl),
            !dict_get_remove; reflexivity|].
  split; [rewrite (preprocess_other_keys d r "revision_id" Hrun eq_refl eq_refl eq_refl),
            !dict_get_remove; reflexivity|].
  pose proof (preprocess_ok d r Hrun) as (Hc & Hm & _).
  split; [exact Hc|]. split; [exact Hm|].
  intros k Hk.
  assert (Hne : forall x, x ∈ ["state"; "revision_id"; "tags"; "organization"; "extras_search_text"] ->
                  String.eqb k x = false).
  { intros x Hx. apply String.eqb_neq. intros ->. contradiction. }
  rewrite (preprocess_other_keys d r k Hrun); try (apply Hne; set_solver).
  rewrite !dict_get_remove.
  rewrite (Hne "revision_id"), (Hne "state") by set_solver. reflexivity.
Qed.

(** X17.  When the pre-processing returns, the result has no [state] and no
    [revision_id], the input had neither of the two date keys, and every key
    other than state, revision_id, tags, organization and extras_search_text
    (the id, the name, the extras themselves, ...) has the value it had in
    the input. *)
Theorem preprocess_drops_and_keeps (d r : dict) :
  preprocess d = Ok r ->
  dict_get "state" r = None
  /\ dict_get "revision_id" r = None
  /\ dict_get "metadata_created" d = None
  /\ dict_get "metadata_modified" d = None
  /\ (forall k, k ∉ ["state"; "revision_id"; "tags"; "organization"; "extras_search_text"] ->
        dict_get k r = dict_get k d).
Proof. exact (preprocess_kept_keys d r). Qed.

Lemma preprocess_derived (d r : dict) :
  preprocess d = Ok r ->
  (forall t, dict_get "tags" d = Some t ->
     exists names, Index.tag_names t = Ok names /\ dict_get "tags" r = Some (PList names))
  /\ (forall o, dict_get "organization" d = Some o ->
     exists name, getitem o "name" = Ok name /\ dict_get "organization" r = Some name)
  /\ (forall x, dict_get "extras" d = Some x ->
     exists items texts, iterate x = Ok items
       /\ comprehension (Index.extra_text str_of) items = Ok texts
       /\ dict_get "extras_search_text" r = Some (PStr (join " " texts))).
Proof.
  intros Hrun.
  apply preprocess_ok in Hrun as (_ & _ & d2 & d3 & H2 & H3 & Hr).
  split; [|split].
  - intros t Ht. rewrite Ht in H2. destruct H2 as (names & Hn & ->).
    exists names. split; [exact Hn|].
    assert (G3 : dict_get "tags" d3 = Some (PList names)).
    { destruct (dict_get "organization" d); [destruct H3 as (name & _ & ->)|subst d3];
        rewrite ?dict_get_set; cbn; rewrite ?dict_get_set; reflexivity. }
    destruct (dict_get "extras" d); [destruct Hr as (items & texts & _ & _ & ->)|subst r];
      rewrite ?dict_get_set; cbn; exact G3.
  - intros o Ho. rewrite Ho in H3. destruct H3 as (name & Hn & ->).
    exists name. split; [exact Hn|].
    destruct (dict_get "extras" d); [destruct Hr as (items & texts & _ & _ & ->)|subst r];
      rewrite !dict_get_set; reflexivity.
  - intros x Hx. rewrite Hx in Hr. destruct Hr as (items & texts & Hi & Hc & ->).
    exists items, texts. repeat split; try assumption. rewrite dict_get_set. reflexivity.
Qed.

(** X18.  When the pre-processing returns: [tags] of the result is the list
    of the ['name'] of each tag, in order; [organization] is the ['name'] of
    the organization; and [extras_search_text] is the "key: value" texts of
    the extras joined by single spaces. *)
Theorem preprocess_derived_fields (d r : dict) :
  preprocess d = Ok r ->
  (forall t, dict_get "tags" d = Some t ->
     exists names, Index.tag_names t = Ok names /\ dict_get "tags" r = Some (PList names))
  /\ (forall o, dict_get "organization" d = Some o ->
     exists name, getitem o "name" = Ok name /\ dict_get "organization" r = Some name)
  /\ (forall x, dict_get "extras" d = Some x ->
     exists items texts, iterate x = Ok items
       /\ comprehension (Index.extra_text str_of) items = Ok texts
       /\ dict_get "extras_search_text" r = Some (PStr (join " " texts))).
Proof. exact (preprocess_derived d r). Qed.

Lemma tag_names_of_dicts (l ns : list pyval) :
  Forall2 (fun tag n => exists td, tag = PDict td /\ dict_get "name" td = Some n) l ns ->
  Index.tag_names (PList l) = Ok ns.
Proof.
  unfold Index.tag_names. cbn. induction 1 as [|tag n l ns (td & -> & Hn) _ IH]; [reflexivity|].
  cbn. unfold subscript. rewrite Hn, IH. reflexivity.
Qed.

Lemma extra_texts_of_pairs (kvs : list (string * string)) :
  comprehension (Index.extra_text str_of)
    (map (fun kv => PDict [("key", PStr (fst kv)); ("value", PStr (snd kv))]) kvs)
  = Ok (map (fun kv => fst kv +:+ ": " +:+ snd kv) kvs).
Proof.
  induction kvs as [|[k v] kvs IH]; [reflexivity|]. cbn in *. rewrite IH. reflexivity.
Qed.

(** X19.  The pre-processing returns exactly when the mapping has neither
    date key, its tags (if any) are iterable with a ['name'] in each, its
    organization (if any) has a ['name'], and its extras (if any) are
    iterable with a ['key'] and a ['value'] in each; otherwise it raises. *)
Theorem preprocess_returns_iff (d : dict) :
  (exists r, preprocess d = Ok r) <->
  (dict_get "metadata_created" d = None
   /\ dict_get "metadata_modified" d = None
   /\ (forall t, dict_get "tags" d = Some t -> exists names, Index.tag_names t = Ok names)
   /\ (forall o, dict_get "organization" d = Some o -> exists name, getitem o "name" = Ok name)
   /\ (forall x, dict_get "extras" d = Some x ->
         exists items texts, iterate x = Ok items
           /\ comprehension (Index.extra_text str_of) items = Ok texts)).
Proof.
  split.
  - intros [r Hrun].
    destruct (preprocess_kept_keys d r Hrun) as (_ & _ & Hc & Hm & _).
    destruct (preprocess_derived d r Hrun) as (Ht & Ho & He).
    split; [exact Hc|]. split; [exact Hm|]. split; [|split].
    + intros t Hd. destruct (Ht t Hd) as (names & Hn & _). eauto.
    + intros o Hd. destruct (Ho o Hd) as (name & Hn & _). eauto.
    + intros x Hd. destruct (He x Hd) as (items & texts & Hi & Hcm & _). eauto.
  - intros (Hc & Hm & Ht & Ho & He).
    unfold Index.preprocess_package_dict_for_elasticsearch, Index.convert_date,
      dict_has, dict_get_or_none.
    rewrite Hc, Hm.
    rewrite !dict_get_remove. cbn.
    destruct (dict_get "tags" d) as [t|].
    + destruct (Ht t eq_refl) as (names & ->).
      rewrite !dict_get_set, !dict_get_remove. cbn.
      destruct (dict_get "organization" d) as [o|].
      * destruct (Ho o eq_refl) as (name & ->).
        rewrite !dict_get_set, !dict_get_remove. cbn.
        destruct (dict_get "extras" d) as [x|]; [|eauto].
        destruct (He x eq_refl) as (items & texts & -> & ->). eauto.
      * rewrite !dict_get_set, !dict_get_remove. cbn.
        destruct (dict_get "extras" d) as [x|]; [|eauto].
        destruct (He x eq_refl) as (items & texts & -> & ->). eauto.
    + rewrite !dict_get_remove. cbn.
      destruct (dict_get "organization" d) as [o|].
      * destruct (Ho o eq_refl) as (name & ->).
        rewrite !dict_get_set, !dict_get_remove. cbn.
        destruct (dict_get "extras" d) as [x|]; [|eauto].
        destruct (He x eq_refl) as (items & texts & -> & ->). eauto.
      * rewrite !dict_get_remove. cbn.
        destruct (dict_get "extras" d) as [x|]; [|eauto].
        destruct (He x eq_refl) as (items & texts & -> & ->). eauto.
Qed.

(** X20.  An organization that is not a mapping (a package without
    organization carries [None]) makes the pre-processing raise, and so does
    a tag that is not a mapping (a plain tag name, say). *)
Theorem preprocess_needs_mappings (d : dict) :
  (forall o, dict_get "organization" d = Some o -> (forall od, o <> PDict od) ->
     exists e, preprocess d = Raised e)
  /\ (forall l tag, dict_get "tags" d = Some (PList l) -> tag ∈ l ->
       (forall td, tag <> PDict td) -> exists e, preprocess d = Raised e).
Proof.
  split.
  - intros o Ho Hnd. destruct (preprocess d) as [r|e] eqn:E; [|eauto].
    destruct (preprocess_derived d r E) as (_ & Horg & _).
    destruct (Horg o Ho) as (name & Hg & _).
    destruct o; cbn in Hg; try discriminate. exfalso. eapply Hnd; reflexivity.
  - intros l tag Ht Hin Hnd. destruct (preprocess d) as [r|e] eqn:E; [|eauto].
    destruct (preprocess_derived d r E) as (Htags & _).
    destruct (Htags _ Ht) as (names & Hn & _). exfalso.
    unfold Index.tag_names in Hn. cbn in Hn. clear -Hn Hin Hnd. revert names Hn.
    induction l as [|x l IH]; intros names Hn; [apply elem_of_nil in Hin; contradiction|].
    apply elem_of_cons in Hin as [<-|Hin].
    + cbn in Hn. destruct tag; cbn in Hn; try discriminate. eapply Hnd; reflexivity.
    + cbn in Hn. destruct (getitem x "name"); [|discriminate].
      destruct (comprehension (fun tag0 => getitem tag0 "name") l) as [ys|] eqn:Ec; [|discriminate].
      eapply IH; eauto.
Qed.
End PreprocessFacts.

Section DecoderFacts.
Variable datetime : Type.
Variable fromisoformat : string -> option datetime.
Local Abbreviation decoder := (Common.elasticsearch_datetime_decoder datetime fromisoformat).
Local Abbreviation dget := (Common.decoded_get datetime).

(** X21.  [elasticsearch_datetime_decoder] keeps the keys and their order;
    under every key the value is the decoding of the old one: a value that
    is not a string is kept, a string is replaced by its datetime when the
    ISO parser accepts it and kept when the parser raises [ValueError]. *)
Theorem decoder_keeps_keys (d : dict) :
  map fst (decoder d) = dict_keys d
  /\ (forall k, dget k (decoder d) = Common.decode_value datetime fromisoformat <$> dict_get k d)
  /\ (forall k v, dict_get k d = Some v -> (forall s, v <> PStr s) ->
        dget k (decoder d) = Some (Common.Plain datetime v))
  /\ (forall k s, dict_get k d = Some (PStr s) ->
        dget k (decoder d) = Some (match fromisoformat s with
                                   | Some t => Common.Datetime datetime t
                                   | None => Common.Plain datetime (PStr s)
                                   end)).
Proof.
  assert (Hget : forall k, dget k (decoder d) = Common.decode_value datetime fromisoformat <$> dict_get k d).
  { intros k. induction d as [|[k0 v0] d0 IH]; [reflexivity|]. cbn.
    destruct (String.eqb k k0); [reflexivity|exact IH]. }
  split.
  { unfold Common.elasticsearch_datetime_decoder, dict_keys. rewrite map_map. reflexivity. }
  split; [exact Hget|]. split.
  - intros k v Hk Hns. rewrite Hget, Hk. cbn. destruct v; try reflexivity.
    exfalso. eapply Hns; reflexivity.
  - intros k s Hk. rewrite Hget, Hk. reflexivity.
Qed.
End DecoderFacts.


(** X16 at work: the sample package with its creation date. *)
Lemma preprocess_dates_raise_name_error_witness :
  Index.preprocess_package_dict_for_elasticsearch no_str dated_package
    = Raised datetime_unbound.
Proof.
  apply (preprocess_dates_raise_name_error no_str dated_package).
  left. reflexivity.
Defined.

(** X17 at work: state and revision_id go, the id stays. *)
Lemma preprocess_drops_and_keeps_witness :
  dict_get "state" preprocessed_sample = None
  /\ dict_get "revision_id" preprocessed_sample = None
  /\ dict_get "id" preprocessed_sample = dict_get "id" sample_package.
Proof.
  destruct (preprocess_drops_and_keeps no_str sample_package preprocessed_sample eq_refl)
    as (Hs & Hr & _ & _ & Hk).
  split; [exact Hs|]. split; [exact Hr|].
  apply Hk. intros Hin.
  repeat (apply elem_of_cons in Hin as [Hin|Hin]; [discriminate|]).
  apply elem_of_nil in Hin. exact Hin.
Defined.

(** X18 at work: the tag names of the sample package. *)
Lemma preprocess_derived_fields_witness :
  exists names,
    Index.tag_names
      (PList [PDict [("name", PStr "Open Data")]; PDict [("name", PStr "Public")]])
      = Ok names
    /\ dict_get "tags" preprocessed_sample = Some (PList names).
Proof.
  exact (proj1 (preprocess_derived_fields no_str sample_package preprocessed_sample
                  eq_refl) _ eq_refl).
Defined.

(** X19 at work: the sample package meets the conditions. *)
Lemma preprocess_returns_iff_witness :
  exists r, Index.preprocess_package_dict_for_elasticsearch no_str sample_package = Ok r.
Proof.
  apply (proj2 (preprocess_returns_iff no_str sample_package)).
  split; [reflexivity|]. split; [reflexivity|].
  split; [intros t [= <-]; eexists; reflexivity|].
  split; [intros o [= <-]; eexists; reflexivity|].
  intros x [= <-]. eexists _, _. split; reflexivity.
Defined.

(** X20 at work: a package whose organization is [None]. *)
Lemma preprocess_needs_mappings_witness :
  exists e,
    Index.preprocess_package_dict_for_elasticsearch no_str
      [("id", PStr "pkg-1"); ("organization", PNone)] = Raised e.
Proof.
  apply (proj1 (preprocess_needs_mappings no_str
                  [("id", PStr "pkg-1"); ("organization", PNone)]) PNone eq_refl).
  intros od. discriminate.
Defined.

(** X21 at work: a date string is decoded, a title is kept. *)
Lemma decoder_keeps_keys_witness :
  Common.decoded_get nat "title"
    (Common.elasticsearch_datetime_decoder nat sample_parser
       [("title", PStr "Rivers"); ("metadata_created", PStr "2024-05-01T10:00:00")])
    = Some (Common.Plain nat (PStr "Rivers"))
  /\ Common.decoded_get nat "metadata_created"
       (Common.elasticsearch_datetime_decoder nat sample_parser
          [("title", PStr "Rivers"); ("metadata_created", PStr "2024-05-01T10:00:00")])
     = Some (Common.Datetime nat 0).
Proof.
  destruct (decoder_keeps_keys nat sample_parser
              [("title", PStr "Rivers"); ("metadata_created", PStr "2024-05-01T10:00:00")])
    as (_ & _ & _ & Hstr).
  split.
  - exact (Hstr "title" "Rivers" eq_refl).
  - exact (Hstr "metadata_created" "2024-05-01T10:00:00" eq_refl).
Defined.

(* ===================================================================== *)
(** ** Further properties: the query runner (query.py) *)
(* ===================================================================== *)

Section MoreQueryFacts.
Context `{SearchDSL} `{Host}.
Import Query.

Ltac qstep :=
  match goal with
  | |- context [if dict_has ?k ?d then _ else _] => destruct (dict_has k d) eqn:?
  | |- context [iterate ?v] => destruct (iterate v) eqn:?
  | |- context [apply_filters ?s ?l] => destruct (apply_filters s l) eqn:?
  | |- context [Search_sort ?s ?v] => destruct (Search_sort s v) eqn:?
  | |- context [Search_extra ?s ?v] => destruct (Search_extra s v) eqn:?
  | |- context [execute ?s ?q ?b] => destruct (execute s q b) as [[?|?] ?] eqn:?
  end; cbn.

Ltac unfold_run :=
  unfold run, run_search, newly_executed; cbn; unfold_monad; cbn.

(** X22.  Whatever the request, the query library and the engine do, a call
    of [run] executes at most one search, and exactly one when it returns; a
    call that executed none left the engine as it was; on the base class
    [SearchQuery] the call raises [NotImplementedError] and does nothing. *)
Theorem run_executes_at_most_one_search (self : query_obj) (query : dict)
    (st : qstate) :
  length (newly_executed (run self query) st) <= 1
  /\ (forall o r st', run self query st = (Ok (o, r), st') ->
        length (newly_executed (run self query) st) = 1)
  /\ (newly_executed (run self query) st = [] ->
        backend (snd (run self query st)) = backend st)
  /\ (cls self = SearchQuery ->
        run self query st =
          (Raised (Exc NotImplementedError
                     "SearchQuery.run() must be implemented by subclasses."), st)).
Proof.
  destruct self as [[] rs n fs]; unfold_run.
  - rewrite drop_all. repeat split; try discriminate. cbn. lia.
  - repeat qstep; rewrite ?drop_all, ?drop_app_length; cbn;
      repeat split; try discriminate; try lia; try reflexivity.
Qed.

(** X23.  A request whose ['fq'] cannot be iterated, or whose first filter
    is not a mapping, makes [run] raise the [TypeError] before anything is
    sent: no search is executed and the state is unchanged. *)
Theorem run_rejects_bad_filters (self : query_obj) (query : dict) (st : qstate) :
  cls self = PackageSearchQuery ->
  (forall e, dict_has "fq" query = true ->
     iterate (dict_get_or_none "fq" query) = Raised e ->
     run self query st = (Raised e, st))
  /\ (forall fq l e, dict_get "fq" query = Some (PList (fq :: l)) ->
     as_kwargs "filter()" fq = Raised e ->
     run self query st = (Raised e, st)).
Proof.
  intros Hc. destruct self as [c rs n fs]; cbn in Hc; subst c. split.
  - intros e Hfq Hit. unfold_run. rewrite Hfq, Hit. reflexivity.
  - intros fq l e Hfq Hkw. unfold_run. unfold dict_has, dict_get_or_none.
    rewrite Hfq. cbn. rewrite Hkw. reflexivity.
Qed.

End MoreQueryFacts.

Section RecordingFacts.
Context `{Host}.
Variable canned : outcome response.
Import Query RecordingDSL.
Local Abbreviation recording := (RecordingDSL.dsl canned).

Lemma recording_filters (s : search) (ds : list dict) :
  @apply_filters recording s (map PDict ds) =
    Ok (mkSearch (s_using s) (s_index s)
          (s_filters s ++ map (fun d => ("term", d)) ds) (s_sort s) (s_extra s)).
Proof.
  revert s. induction ds as [|d ds IH]; intros s; cbn.
  - rewrite app_nil_r. destruct s; reflexivity.
  - rewrite IH. cbn. rewrite <- app_assoc. reflexivity.
Qed.

(** X24.  How [run] drives the query library, seen through a library that
    records its calls: for a request whose ['fq'] is a list of mappings (or
    is absent), the one search executed was built for the configured index
    with one [term] filter per mapping, in the order of the request, the
    ['sort'] value passed as it is, ['start'] as [from_] and ['rows'] as
    [size], and carries the clause of the request. *)
Theorem run_passes_request_through (self : query_obj) (query : dict)
    (st : @qstate recording) (ds : list dict) :
  cls self = PackageSearchQuery ->
  dict_get "fq" query = Some (PList (map PDict ds))
    \/ (dict_get "fq" query = None /\ ds = []) ->
  @newly_executed recording _ _ (@run recording _ self query) st =
    [(mkSearch make_connection
        (config_get "ckan.elasticsearch.index" (PStr "ckan"))
        (map (fun d => ("term", d)) ds)
        (option_list (dict_get "sort" query))
        (match dict_get "start" query with Some v => [("from_", v)] | None => [] end
         ++ match dict_get "rows" query with Some v => [("size", v)] | None => [] end),
      query_clause query)].
Proof.
  intros Hc Hfq. destruct self as [c rs n fs]; cbn in Hc; subst c.
  unfold run, run_search, newly_executed. cbn [cls]. unfold_monad.
  unfold dict_has, dict_get_or_none.
  destruct Hfq as [Hfq|[Hfq ->]]; rewrite Hfq; cbn [iterate];
    rewrite ?recording_filters; cbn;
    destruct (dict_get "sort" query), (dict_get "start" query), (dict_get "rows" query);
    cbn; destruct canned; cbn; rewrite drop_app_length; reflexivity.
Qed.

End RecordingFacts.

(** X22 at work: the returning call of the C8 example executed one search. *)
Lemma run_executes_at_most_one_search_witness :
  length (@newly_executed canned_dsl RefEngine.no_config _
            (@Query.run canned_dsl RefEngine.no_config
               (Query.new Query.PackageSearchQuery) open_data)
            (@Query.mkQState canned_dsl tt [])) = 1.
Proof.
  apply (proj1 (proj2 (@run_executes_at_most_one_search canned_dsl RefEngine.no_config
                         (Query.new Query.PackageSearchQuery) open_data
                         (@Query.mkQState canned_dsl tt [])))
           (Query.mkQuery Query.PackageSearchQuery [PDict rivers; PDict lakes] 2 [])
           (PDict [("results", PList [PDict rivers; PDict lakes]);
                   ("count", PInt 2); ("facets", PDict [])])
           (snd (@Query.run canned_dsl RefEngine.no_config
                   (Query.new Query.PackageSearchQuery) open_data
                   (@Query.mkQState canned_dsl tt [])))).
  reflexivity.
Defined.

(** X23 at work: a number where the filters should be. *)
Lemma run_rejects_bad_filters_witness :
  @Query.run canned_dsl RefEngine.no_config (Query.new Query.PackageSearchQuery)
    [("fq", PInt 3)] (@Query.mkQState canned_dsl tt []) =
  (Raised (Exc TypeError "'int' object is not iterable"),
   @Query.mkQState canned_dsl tt []).
Proof.
  apply (proj1 (@run_rejects_bad_filters canned_dsl RefEngine.no_config
                  (Query.new Query.PackageSearchQuery) [("fq", PInt 3)]
                  (@Query.mkQState canned_dsl tt []) eq_refl));
    reflexivity.
Defined.

(** X24 at work: two filters, a sort key and a page. *)
Lemma run_passes_request_through_witness :
  @newly_executed canned_dsl RefEngine.no_config _
    (@Query.run canned_dsl RefEngine.no_config
       (Query.new Query.PackageSearchQuery) filtered_request)
    (@Query.mkQState canned_dsl tt []) =
  [(RecordingDSL.mkSearch (@Query.make_connection RefEngine.no_config) (PStr "ckan")
      [("term", [("state", PStr "active")]); ("term", [("type", PStr "dataset")])]
      [PStr "name asc"]
      [("from_", PInt 0); ("size", PInt 10)],
    MultiMatch (PStr "open data") Query.FIELDS)].
Proof.
  apply (@run_passes_request_through RefEngine.no_config (Ok two_hits)
           (Query.new Query.PackageSearchQuery) filtered_request
           (@Query.mkQState canned_dsl tt [])
           [[("state", PStr "active")]; [("type", PStr "dataset")]] eq_refl).
  left. reflexivity.
Defined.
